(** * Shape and parameter-size model of the MKL-DNN fused RNN operators

    A shallow embedding of [kernels/mkldnn_rnn_ops.cc] and
    [ops/mkldnn_rnn_ops.cc]: the parameter-buffer size calculator
    [get_param_size], the shape resolver [ExtractForwardInput], the three
    kernels ([MkldnnRNNParamsSizeOp], [MkldnnRNNForwardOp],
    [MkldnnRNNBackwardOp]) up to the call of the vendor primitive, and the
    shape function registered for the [MkldnnRNN] op.

    Conventions.
    - A C++ [int] is a [Z] kept in the signed 32-bit range by [to_int];
      every [int] operation of the source is written with its wrap-around
      ([int_add], [int_sub], [int_mul]).  [int64] values (tensor dimensions)
      are plain [Z].
    - A [TensorShape] is the list of its dimension sizes; the shape written
      [{}] in the source is [[]].  Building one from sizes
      ([TensorShape({...})]) goes through [MakeTensorShape], which has the
      CHECKs of [TensorShape::AddDim].
    - A call returns [Ok], fails with a [Status] ([Failed]) or dies
      ([Aborted]) on a null pointer or a violated [REQUIRES]/[CHECK] of the
      tensor classes. *)

From Stdlib Require Import ZArith Zdiv List String Bool Lia Setoid Morphisms.
Import ListNotations.
Open Scope Z_scope.

(* ================================================================== *)
(** * Machine integers *)

Module Int32.

Definition half : Z := 2 ^ 31.
Definition modulus : Z := 2 ^ 32.
Definition INT_MIN : Z := - half.
Definition INT_MAX : Z := half - 1.

(** Conversion of an integer value to [int]: reduction modulo [2^32]
    into [INT_MIN .. INT_MAX]. *)
Definition to_int (z : Z) : Z := (z + half) mod modulus - half.

Definition int_add (a b : Z) : Z := to_int (a + b).
Definition int_sub (a b : Z) : Z := to_int (a - b).
Definition int_mul (a b : Z) : Z := to_int (a * b).

Definition fits_int (z : Z) : Prop := INT_MIN <= z <= INT_MAX.

End Int32.
Import Int32.

(* ================================================================== *)
(** * Model types (mkldnn enums and [MkldnnModelTypes]) *)

(** [mkldnn::algorithm]: the four recurrence kinds, and the enum's other
    members (convolution, pooling, ...), which only the [default:] branch of
    [get_param_size] can meet. *)
Inductive algorithm : Type :=
| rnn_relu
| rnn_tanh
| rnn_lstm
| rnn_gru
| algorithm_other.

Inductive input_mode : Type := rnn_linear_input | rnn_skip_input.

Inductive direction : Type := rnn_unidirectional | rnn_bidirectional.

Definition algorithm_eqb (a b : algorithm) : bool :=
  match a, b with
  | rnn_relu, rnn_relu | rnn_tanh, rnn_tanh | rnn_lstm, rnn_lstm
  | rnn_gru, rnn_gru | algorithm_other, algorithm_other => true
  | _, _ => false
  end.

Definition direction_eqb (a b : direction) : bool :=
  match a, b with
  | rnn_unidirectional, rnn_unidirectional
  | rnn_bidirectional, rnn_bidirectional => true
  | _, _ => false
  end.

Record MkldnnModelTypes : Type := {
  rnn_mode : algorithm;
  rnn_input_mode : input_mode;
  rnn_direction_mode : direction
}.

(** Only LSTM has input-c. *)
Definition HasInputC (mt : MkldnnModelTypes) : bool :=
  algorithm_eqb (rnn_mode mt) rnn_lstm.

(* ================================================================== *)
(** * Parameter-buffer size *)

(** [get_param_size]: the two partial sums are [int] locals, the products
    associate to the left as in the source, and the last product is an [int]
    converted to the [int64] result. *)
Definition get_param_size
    (rnn_mode : algorithm) (dir_count input_size num_units num_layers : Z) : Z :=
  match rnn_mode with
  | rnn_relu | rnn_tanh =>
      let first_layer_weights :=
        int_mul num_units (int_add (int_add input_size num_units) 2) in
      let higher_layer_weights :=
        int_mul (int_mul (int_sub num_layers 1) num_units)
                (int_add (int_add num_units num_units) 2) in
      int_mul (int_add first_layer_weights higher_layer_weights) dir_count
  | rnn_lstm =>
      let first_layer_weights :=
        int_mul (int_mul 4 num_units) (int_add (int_add input_size num_units) 2) in
      let higher_layer_weights :=
        int_mul (int_mul (int_mul 4 (int_sub num_layers 1)) num_units)
                (int_add (int_add num_units num_units) 2) in
      int_mul (int_add first_layer_weights higher_layer_weights) dir_count
  | rnn_gru =>
      let first_layer_weights :=
        int_mul (int_mul 3 num_units) (int_add (int_add input_size num_units) 2) in
      let higher_layer_weights :=
        int_mul (int_mul (int_mul 3 (int_sub num_layers 1)) num_units)
                (int_add (int_add num_units num_units) 2) in
      int_mul (int_add first_layer_weights higher_layer_weights) dir_count
  | algorithm_other => -1
  end.

(** The size formula in the words of the specification, over unbounded
    integers. *)
Module Spec.

Definition gate_multiplier (kind : algorithm) : option Z :=
  match kind with
  | rnn_relu | rnn_tanh => Some 1
  | rnn_lstm => Some 4
  | rnn_gru => Some 3
  | algorithm_other => None
  end.

Definition param_size (g dir_count input_size num_units num_layers : Z) : Z :=
  let first_layer := g * num_units * (input_size + num_units + 2) in
  let other_layers := g * (num_layers - 1) * num_units * (2 * num_units + 2) in
  (first_layer + other_layers) * dir_count.

End Spec.

(* ================================================================== *)
(** * Tensors, statuses and call results *)

(** [TensorShape]: the dimension sizes, outermost first. *)
Definition TensorShape : Type := list Z.

Definition dims (s : TensorShape) : Z := Z.of_nat (List.length s).

Definition NumElements (s : TensorShape) : Z := fold_right Z.mul 1 s.

(** [TensorShapeUtils::IsScalar]. *)
Definition IsScalar (s : TensorShape) : bool := dims s =? 0.

(** [TensorShape::operator==]. *)
Fixpoint shape_eqb (a b : TensorShape) : bool :=
  match a, b with
  | [], [] => true
  | x :: a', y :: b' => (x =? y) && shape_eqb a' b'
  | _, _ => false
  end.

(** The arguments handed to [errors::InvalidArgument], in order; the status
    message is their concatenation, a shape being printed by
    [DebugString] and an integer in decimal. *)
Inductive message_part : Type :=
| Text (s : string)
| ShapeDebugString (s : TensorShape)
| Int64Value (v : Z).

Inductive Status : Type :=
| InvalidArgument (message : list message_part).

(** What ends a call without a status: a dereferenced null pointer, a
    dimension index outside [0 <= d < dims()] ([TensorShape::dim_size]
    REQUIRES it), a [scalar<T>()] of a tensor that has not exactly one
    element (a CHECK of [Tensor]), a [TensorShape] built from a negative
    size or with more than [2^63-1] elements (the CHECKs of
    [TensorShape::AddDim]). *)
Inductive fault : Type :=
| NullPointerDereference
| DimIndexOutOfRange
| NotASingleElement
| InvalidShapeSize.

Inductive Result (A : Type) : Type :=
| Ok (a : A)
| Failed (s : Status)
| Aborted (f : fault).

Arguments Ok {A} a.
Arguments Failed {A} s.
Arguments Aborted {A} f.

Definition bind {A B : Type} (r : Result A) (k : A -> Result B) : Result B :=
  match r with
  | Ok a => k a
  | Failed s => Failed s
  | Aborted f => Aborted f
  end.

Declare Scope result_scope.
Delimit Scope result_scope with result.
Notation "x <- e ;; k" := (bind e (fun x => k))
  (at level 61, e at next level, right associativity) : result_scope.
Notation "' p <- e ;; k" := (bind e (fun x => match x with p => k end))
  (at level 61, p pattern, e at next level, right associativity) : result_scope.
Open Scope result_scope.

Definition is_ok {A : Type} (r : Result A) : bool :=
  match r with Ok _ => true | _ => false end.

(** [TensorShape::dim_size(d)]. *)
Definition dim_size (s : TensorShape) (d : nat) : Result Z :=
  match nth_error s d with
  | Some n => Ok n
  | None => Aborted DimIndexOutOfRange
  end.

Definition INT64_MAX : Z := 2 ^ 63 - 1.

(** [TensorShape::AddDim] for each size in turn, [num_elements] being the
    element count so far: [CHECK_GE(size, 0)], then
    [CHECK_LE(0, MultiplyWithoutOverflow(num_elements, size))]. *)
Fixpoint AddDims (num_elements : Z) (dim_sizes : list Z) : bool :=
  match dim_sizes with
  | [] => true
  | size :: rest =>
      (0 <=? size) && (num_elements * size <=? INT64_MAX)
      && AddDims (num_elements * size) rest
  end.

(** [TensorShape(dim_sizes)], the constructor from a list of sizes. *)
Definition MakeTensorShape (dim_sizes : list Z) : Result TensorShape :=
  if AddDims 1 dim_sizes then Ok dim_sizes else Aborted InvalidShapeSize.

(** A tensor of the element type [T] of the kernels: only its shape matters
    to the code modelled here. *)
Record Tensor : Type := { shape : TensorShape }.

(** An [int32] tensor with its flat contents. *)
Record Int32Tensor : Type := {
  i32_shape : TensorShape;
  i32_flat : list Z
}.

(** [t.scalar<int>()()]. *)
Definition scalar_int (t : Int32Tensor) : Result Z :=
  if NumElements (i32_shape t) =? 1 then
    match i32_flat t with
    | v :: _ => Ok v
    | [] => Aborted NotASingleElement
    end
  else Aborted NotASingleElement.

(* ================================================================== *)
(** * Attribute parsing and the common kernel base *)

Definition ParseRNNMode (str : string) : Result algorithm :=
  if (str =? "rnn_relu")%string then Ok rnn_relu
  else if (str =? "rnn_tanh")%string then Ok rnn_tanh
  else if (str =? "lstm")%string then Ok rnn_lstm
  else if (str =? "gru")%string then Ok rnn_gru
  else Failed (InvalidArgument [Text "Invalid RNN mode: "; Text str]).

Definition ParseRNNInputMode (str : string) : Result input_mode :=
  if (str =? "linear_input")%string then Ok rnn_linear_input
  else if (str =? "skip_input")%string then Ok rnn_skip_input
  else if (str =? "auto_select")%string then Ok rnn_linear_input
  else Failed (InvalidArgument [Text "Invalid RNN input mode: "; Text str]).

Definition ParseRNNDirectionMode (str : string) : Result direction :=
  if (str =? "unidirectional")%string then Ok rnn_unidirectional
  else if (str =? "bidirectional")%string then Ok rnn_bidirectional
  else Failed (InvalidArgument [Text "Invalid RNN direction mode: "; Text str]).

(** The attributes of an op's node: the three categorical strings, the
    [int] attributes [seed] and [seed2] (64-bit in the node) and the [float]
    attribute [dropout], kept as its bit pattern. *)
Record RNNAttrs : Type := {
  attr_rnn_mode : string;
  attr_input_mode : string;
  attr_direction : string;
  attr_dropout : Z;
  attr_seed : Z;
  attr_seed2 : Z
}.

(** [GetAttr] into an [int] member: an [int] attribute, 64-bit in the
    node, is read into a 32-bit [int] only if its value is one. *)
Definition GetAttr_int32 (attr_name : string) (v : Z) : Result Z :=
  if (INT_MIN <=? v) && (v <=? INT_MAX) then Ok v
  else Failed (InvalidArgument
                 [Text "Attr "; Text attr_name; Text " has value ";
                  Int64Value v; Text " out of range for an int32"]).

(** Constructor of [MkldnnRNNKernelCommon]: each [OP_REQUIRES_OK] ends it
    at the first failure.  The members [dropout_], [seed_] and [seed2_]
    take the attribute values; the result here is [model_types_]. *)
Definition MkldnnRNNKernelCommon (attrs : RNNAttrs) : Result MkldnnModelTypes :=
  let dropout_ := attr_dropout attrs in
  seed_ <- GetAttr_int32 "seed" (attr_seed attrs) ;;
  seed2_ <- GetAttr_int32 "seed2" (attr_seed2 attrs) ;;
  m <- ParseRNNMode (attr_rnn_mode attrs) ;;
  i <- ParseRNNInputMode (attr_input_mode attrs) ;;
  d <- ParseRNNDirectionMode (attr_direction attrs) ;;
  Ok {| rnn_mode := m; rnn_input_mode := i; rnn_direction_mode := d |}.

(* ================================================================== *)
(** * Shape resolution: [ExtractForwardInput] *)

Record MkldnnModelShapes : Type := {
  num_layers : Z;
  input_size : Z;
  num_units : Z;
  seq_length : Z;
  batch_size : Z;
  dir_count : Z;
  input_shape : TensorShape;
  output_shape : TensorShape;
  hidden_state_shape : TensorShape
}.

Definition IsCompatibleWith (a rhs : MkldnnModelShapes) : bool :=
  (num_layers a =? num_layers rhs) && (input_size a =? input_size rhs) &&
  (num_units a =? num_units rhs) && (dir_count a =? dir_count rhs).

(** The inputs of the forward op, which are also the first four inputs of
    the backprop op: [context->input] finds each of them, the registered op
    fixing the arity. *)
Record OpKernelContext : Type := {
  input : Tensor;
  input_h : Tensor;
  input_c : Tensor;
  params : Tensor
}.

(** What [ExtractForwardInput] leaves in its out-parameters.  [Tcx] is the
    caller's [const Tensor* Tcx = nullptr], assigned only for a model with
    input-c. *)
Record ForwardInput : Type := {
  Tx : Tensor;
  Thx : Tensor;
  Tcx : option Tensor;
  Tweights : Tensor;
  model_shapes : MkldnnModelShapes
}.

Definition ExtractForwardInput
    (context : OpKernelContext) (model_types : MkldnnModelTypes)
    : Result ForwardInput :=
  let input_ := input context in
  let input_h_ := input_h context in
  let input_c_ :=
    if HasInputC model_types then Some (input_c context) else None in
  let params_ := params context in
  (* input layout: T x N x F *)
  '(seq_length_, batch_size_, input_size_, input_shape_) <-
    (if dims (shape input_) =? 2 then
       d0 <- dim_size (shape input_) 0 ;;
       d1 <- dim_size (shape input_) 1 ;;
       let batch_size_ := to_int d0 in
       let input_size_ := to_int d1 in
       input_shape_ <- MakeTensorShape [1; batch_size_; input_size_] ;;
       Ok (1, batch_size_, input_size_, input_shape_)
     else
       d0 <- dim_size (shape input_) 0 ;;
       d1 <- dim_size (shape input_) 1 ;;
       d2 <- dim_size (shape input_) 2 ;;
       Ok (to_int d0, to_int d1, to_int d2, shape input_)) ;;
  let dir_count_ :=
    if direction_eqb (rnn_direction_mode model_types) rnn_bidirectional
    then 2 else 1 in
  (* hx layout: (L * dir_count) x N x num_units *)
  '(num_layers_, num_units_, hidden_state_shape_) <-
    (if dims (shape input_h_) =? 2 then
       d1 <- dim_size (shape input_h_) 1 ;;
       let num_units_ := to_int d1 in
       hidden_state_shape_ <- MakeTensorShape [batch_size_; num_units_] ;;
       Ok (1, num_units_, hidden_state_shape_)
     else
       d0 <- dim_size (shape input_h_) 0 ;;
       let num_layers_ := to_int (Z.quot d0 dir_count_) in
       d2 <- dim_size (shape input_h_) 2 ;;
       let num_units_ := to_int d2 in
       hidden_state_shape_ <-
         MakeTensorShape
           [int_mul dir_count_ num_layers_; batch_size_; num_units_] ;;
       Ok (num_layers_, num_units_, hidden_state_shape_)) ;;
  (* cx layout: (L * dir_count) x N x num_units *)
  _ <- (if HasInputC model_types then
          match input_c_ with
          | None => Aborted NullPointerDereference
          | Some c =>
              if negb (shape_eqb (shape input_h_) (shape c)) then
                Failed (InvalidArgument
                          [Text "input_h and input_c must have the same shape: ";
                           ShapeDebugString (shape input_h_); Text " ";
                           ShapeDebugString (shape c)])
              else Ok tt
          end
        else Ok tt) ;;
  (* output layout: T x N x (dir_count * num_units) *)
  output_shape_ <-
    (if dims (shape input_) =? 2 then
       MakeTensorShape [batch_size_; int_mul dir_count_ num_units_]
     else
       MakeTensorShape
         [seq_length_; batch_size_; int_mul dir_count_ num_units_]) ;;
  Ok {| Tx := input_; Thx := input_h_; Tcx := input_c_; Tweights := params_;
        model_shapes :=
          {| num_layers := num_layers_; input_size := input_size_;
             num_units := num_units_; seq_length := seq_length_;
             batch_size := batch_size_; dir_count := dir_count_;
             input_shape := input_shape_; output_shape := output_shape_;
             hidden_state_shape := hidden_state_shape_ |} |}.

(* ================================================================== *)
(** * The parameter-size kernel *)

Definition log_unless (ok : bool) (line : string) (log : list string)
    : list string :=
  if ok then log else log ++ [line].

(** [MkldnnRNNParamsSizeOp::Compute] with [Index = int32]: the output tensor
    of shape [{1}] and the lines sent to [LOG(ERROR)]. *)
Definition MkldnnRNNParamsSizeOp_Compute
    (model_types : MkldnnModelTypes)
    (num_layers_t num_units_t input_size_t : Int32Tensor)
    : Result (Int32Tensor * list string) :=
  let dir_count_ :=
    if direction_eqb (rnn_direction_mode model_types) rnn_unidirectional
    then 1 else 2 in
  let log := log_unless (IsScalar (i32_shape num_layers_t))
                        "num_layers is not a scalar" [] in
  num_layers_ <- scalar_int num_layers_t ;;
  let log := log_unless (IsScalar (i32_shape num_units_t))
                        "num_units is not a scalar" log in
  num_units_ <- scalar_int num_units_t ;;
  let log := log_unless (IsScalar (i32_shape input_size_t))
                        "input_size is not a scalar" log in
  input_size_ <- scalar_int input_size_t ;;
  let params_size :=
    to_int (get_param_size (rnn_mode model_types) dir_count_
                           input_size_ num_units_ num_layers_) in
  Ok ({| i32_shape := [1]; i32_flat := [params_size] |}, log).

(* ================================================================== *)
(** * Descriptors handed to the vendor primitive *)

Inductive prop_kind : Type :=
| forward_training
| forward_inference
| backward.

Inductive memory_format : Type := format_rnx | format_x.

(** [memory::desc]; the data type is [f32] throughout. *)
Record memory_desc : Type := {
  md_dims : list Z;
  md_format : memory_format
}.

(** The arguments of [rnn_forward::desc] and of [rnn_backward::desc]. *)
Record rnn_desc : Type := {
  rd_prop_kind : prop_kind;
  rd_algorithm : algorithm;
  rd_direction : direction;
  rd_input_mode : input_mode;
  rd_num_units : Z;
  rd_num_layers : Z;
  rd_seq_length : Z;
  rd_state_outputs : Z;
  rd_x_desc : memory_desc;
  rd_hx_desc : memory_desc;
  rd_y_desc : memory_desc;
  rd_weights_desc : memory_desc
}.

(** The vendor library's answer to
    [primitive_desc(desc, eng).workspace_primitive_desc().get_size()], in
    bytes; the kernels take it as given. *)
Definition workspace_get_size : Type := rnn_desc -> Z.

(** [sizeof(T)] for the registered [T = float]. *)
Definition sizeof_T : Z := 4.

Definition make_rnn_desc
    (pk : prop_kind) (model_types : MkldnnModelTypes) (ms : MkldnnModelShapes)
    (state_outputs : Z) (x_desc hx_desc y_desc weights_desc : memory_desc)
    : rnn_desc :=
  {| rd_prop_kind := pk;
     rd_algorithm := rnn_mode model_types;
     rd_direction := rnn_direction_mode model_types;
     rd_input_mode := rnn_input_mode model_types;
     rd_num_units := num_units ms;
     rd_num_layers := num_layers ms;
     rd_seq_length := seq_length ms;
     rd_state_outputs := state_outputs;
     rd_x_desc := x_desc;
     rd_hx_desc := hx_desc;
     rd_y_desc := y_desc;
     rd_weights_desc := weights_desc |}.

(** Reading the data of the tensor behind a [const Tensor*]. *)
Definition deref (p : option Tensor) : Result Tensor :=
  match p with
  | Some t => Ok t
  | None => Aborted NullPointerDereference
  end.

(* ================================================================== *)
(** * The forward kernel *)

(** The one submission to the vendor primitive: its descriptor and whether
    the cell-state memories and the workspace are passed (else [nullptr]). *)
Record rnn_call : Type := {
  call_desc : rnn_desc;
  call_fwd_desc : rnn_desc;
  call_cell_state : bool;
  call_workspace : option Z
}.

Record ForwardOutputs : Type := {
  output : Tensor;
  output_h : Tensor;
  output_c : Tensor;
  reserve_space : Tensor;
  forward_call : rnn_call
}.

(** [MkldnnRNNForwardOp::Compute]. *)
Definition MkldnnRNNForwardOp_Compute
    (get_size : workspace_get_size)
    (model_types : MkldnnModelTypes) (is_training : bool)
    (context : OpKernelContext) : Result ForwardOutputs :=
  fi <- ExtractForwardInput context model_types ;;
  let ms := model_shapes fi in
  let Ty := {| shape := output_shape ms |} in
  let Thy := {| shape := hidden_state_shape ms |} in
  let Tcy :=
    if HasInputC model_types then {| shape := hidden_state_shape ms |}
    else {| shape := [] |} in
  let state_outputs := 1 in
  let total_w :=
    to_int (get_param_size (rnn_mode model_types) (dir_count ms)
                           (input_size ms) (num_units ms) (num_layers ms)) in
  let x_desc :=
    {| md_dims := [seq_length ms; batch_size ms; input_size ms];
       md_format := format_rnx |} in
  let hx_desc :=
    {| md_dims := [num_layers ms; batch_size ms; num_units ms];
       md_format := format_rnx |} in
  let y_desc :=
    {| md_dims := [seq_length ms; batch_size ms;
                   int_mul (num_units ms) (dir_count ms)];
       md_format := format_rnx |} in
  let weights_desc := {| md_dims := [total_w]; md_format := format_x |} in
  (* cx = new memory({*hx_desc, *eng}, Tcx->flat<T>().data()) *)
  _ <- (if HasInputC model_types then _ <- deref (Tcx fi) ;; Ok tt
        else Ok tt) ;;
  let a_prop_kind :=
    if is_training then forward_training else forward_inference in
  let rnn_fwd_desc :=
    make_rnn_desc a_prop_kind model_types ms state_outputs
                  x_desc hx_desc y_desc weights_desc in
  if is_training then
    let workspace_size := to_int (get_size rnn_fwd_desc / sizeof_T) in
    (* allocate_output(3, {workspace_size}, &Tworkspace) *)
    workspace_shape <- MakeTensorShape [workspace_size] ;;
    Ok {| output := Ty; output_h := Thy; output_c := Tcy;
          reserve_space := {| shape := workspace_shape |};
          forward_call :=
            {| call_desc := rnn_fwd_desc; call_fwd_desc := rnn_fwd_desc;
               call_cell_state := HasInputC model_types;
               call_workspace := Some (get_size rnn_fwd_desc) |} |}
  else
    Ok {| output := Ty; output_h := Thy; output_c := Tcy;
          reserve_space := {| shape := [] |};
          forward_call :=
            {| call_desc := rnn_fwd_desc; call_fwd_desc := rnn_fwd_desc;
               call_cell_state := HasInputC model_types;
               call_workspace := None |} |}.

(* ================================================================== *)
(** * The backward kernel *)

Record BackpropContext : Type := {
  forward_inputs : OpKernelContext;
  output_backprop : Tensor;
  output_h_backprop : Tensor;
  output_c_backprop : Tensor;
  reserve_space_in : Tensor
}.

Record BackwardOutputs : Type := {
  input_backprop : Tensor;
  input_h_backprop : Tensor;
  input_c_backprop : Tensor;
  params_backprop : Tensor;
  backward_call : rnn_call
}.

(** [OP_REQUIRES(context, cond, status)]: the status expression is evaluated
    only when the condition fails. *)
Definition OP_REQUIRES (cond : bool) (status : Result Status) : Result unit :=
  if cond then Ok tt
  else s <- status ;; Failed s.

(** [MkldnnRNNBackwardOp::Compute]. *)
Definition MkldnnRNNBackwardOp_Compute
    (get_size : workspace_get_size)
    (model_types : MkldnnModelTypes)
    (context : BackpropContext) : Result BackwardOutputs :=
  fi <- ExtractForwardInput (forward_inputs context) model_types ;;
  let ms := model_shapes fi in
  let hidden_state_shape_ := hidden_state_shape ms in
  let output_shape_ := output_shape ms in
  let Tdy := output_backprop context in
  _ <- OP_REQUIRES (shape_eqb output_shape_ (shape Tdy))
         (c <- deref (Tcx fi) ;;
          Ok (InvalidArgument
                [Text "h and c must have the same shape: ";
                 ShapeDebugString (shape (Thx fi)); Text " ";
                 ShapeDebugString (shape c)])) ;;
  let Tdhy := output_h_backprop context in
  _ <- OP_REQUIRES (shape_eqb (shape Tdhy) hidden_state_shape_)
         (Ok (InvalidArgument
                [Text "Invalid dhy shape: "; ShapeDebugString (shape Tdhy);
                 Text " "; ShapeDebugString hidden_state_shape_])) ;;
  Tdcy <- (if HasInputC model_types then
             let Tdcy := output_c_backprop context in
             _ <- OP_REQUIRES (shape_eqb (shape Tdcy) hidden_state_shape_)
                    (Ok (InvalidArgument
                           [Text "Invalid dcy shape: ";
                            ShapeDebugString (shape Tdcy); Text " ";
                            ShapeDebugString hidden_state_shape_])) ;;
             Ok (Some Tdcy)
           else Ok None) ;;
  let Tdx := {| shape := shape (Tx fi) |} in
  let Tdhx := {| shape := shape (Thx fi) |} in
  Tdcx <- (if HasInputC model_types then
             c <- deref (Tcx fi) ;; Ok {| shape := shape c |}
           else Ok {| shape := [] |}) ;;
  let Tdweights := {| shape := shape (Tweights fi) |} in
  let state_outputs := 1 in
  let total_w :=
    to_int (get_param_size (rnn_mode model_types) (dir_count ms)
                           (input_size ms) (num_units ms) (num_layers ms)) in
  let x_desc :=
    {| md_dims := [seq_length ms; batch_size ms; input_size ms];
       md_format := format_rnx |} in
  let hx_desc :=
    {| md_dims := [num_layers ms; batch_size ms; num_units ms];
       md_format := format_rnx |} in
  let y_desc :=
    {| md_dims := [seq_length ms; batch_size ms;
                   int_mul (num_units ms) (dir_count ms)];
       md_format := format_rnx |} in
  let weights_desc := {| md_dims := [total_w]; md_format := format_x |} in
  let rnn_fwd_desc :=
    make_rnn_desc forward_training model_types ms state_outputs
                  x_desc hx_desc y_desc weights_desc in
  let rnn_bwd_desc :=
    make_rnn_desc backward model_types ms state_outputs
                  x_desc hx_desc y_desc weights_desc in
  (* workspace = new memory(rnn_fwd_prim_desc->workspace_primitive_desc(),
                            Tworkspace data): the reserve_space input is
     wrapped as it comes, its own shape is not looked at *)
  let Tworkspace := reserve_space_in context in
  let workspace_bytes := get_size rnn_fwd_desc in
  (* cx, dcx, dcy = new memory({*hx_desc, *eng}, ...->flat<T>().data()) *)
  _ <- (if HasInputC model_types then
          _ <- deref (Tcx fi) ;; _ <- deref Tdcy ;; Ok tt
        else Ok tt) ;;
  Ok {| input_backprop := Tdx; input_h_backprop := Tdhx;
        input_c_backprop := Tdcx; params_backprop := Tdweights;
        backward_call :=
          {| call_desc := rnn_bwd_desc; call_fwd_desc := rnn_fwd_desc;
             call_cell_state := HasInputC model_types;
             call_workspace := Some workspace_bytes |} |}.

(* ================================================================== *)
(** * The shape function registered for the [MkldnnRNN] op *)

(** A dimension known at graph construction, or unknown. *)
Definition DimensionHandle : Type := option Z.

(** A shape of known rank, or of unknown rank. *)
Definition ShapeHandle : Type := option (list DimensionHandle).

Definition kUnknownRank : Z := -1.

Definition Rank (s : ShapeHandle) : Z :=
  match s with
  | Some ds => Z.of_nat (List.length ds)
  | None => kUnknownRank
  end.

Definition Dim (s : ShapeHandle) (idx : nat) : Result DimensionHandle :=
  match s with
  | None => Ok None
  | Some ds =>
      match nth_error ds idx with
      | Some d => Ok d
      | None => Aborted DimIndexOutOfRange
      end
  end.

Definition MakeShape (ds : list DimensionHandle) : ShapeHandle := Some ds.

Definition UnknownShape : ShapeHandle := None.

(** [InferenceContext::Multiply(dim, int64, &out)], a helper of the host
    framework, taken as given. *)
Definition Multiply_fn : Type := DimensionHandle -> Z -> Result DimensionHandle.

Record InferredShapes : Type := {
  inferred_output : ShapeHandle;
  inferred_output_h : ShapeHandle;
  inferred_output_c : ShapeHandle;
  inferred_reserve_space : ShapeHandle
}.

Definition MkldnnRNN_ShapeFn
    (Multiply : Multiply_fn) (attrs : RNNAttrs)
    (input_shape_ input_h_shape_ : ShapeHandle) : Result InferredShapes :=
  let direction_ := attr_direction attrs in
  let rnn_mode_ := attr_rnn_mode attrs in
  let dir_count_ := if (direction_ =? "bidirectional")%string then 2 else 1 in
  output_shape_ <-
    (if Rank input_shape_ =? 3 then
       seq_length_ <- Dim input_shape_ 0 ;;
       batch_size_ <- Dim input_shape_ 1 ;;
       num_units_ <- Dim input_h_shape_ 2 ;;
       output_size <- Multiply num_units_ dir_count_ ;;
       Ok (MakeShape [seq_length_; batch_size_; output_size])
     else
       batch_size_ <- Dim input_shape_ 0 ;;
       num_units_ <- Dim input_h_shape_ 1 ;;
       output_size <- Multiply num_units_ dir_count_ ;;
       Ok (MakeShape [batch_size_; output_size])) ;;
  let output_h_shape := input_h_shape_ in
  let output_c_shape :=
    if (rnn_mode_ =? "lstm")%string then output_h_shape else MakeShape [] in
  Ok {| inferred_output := output_shape_;
        inferred_output_h := output_h_shape;
        inferred_output_c := output_c_shape;
        inferred_reserve_space := UnknownShape |}.

(* ================================================================== *)
(** * Derived notions used in the statements *)

(** The descriptor both kernels build from the resolved shapes
    ([state_outputs = 1], the four memory descriptors in [f32]). *)
Definition rnn_desc_of
    (pk : prop_kind) (mt : MkldnnModelTypes) (ms : MkldnnModelShapes)
    : rnn_desc :=
  make_rnn_desc pk mt ms 1
    {| md_dims := [seq_length ms; batch_size ms; input_size ms];
       md_format := format_rnx |}
    {| md_dims := [num_layers ms; batch_size ms; num_units ms];
       md_format := format_rnx |}
    {| md_dims := [seq_length ms; batch_size ms;
                   int_mul (num_units ms) (dir_count ms)];
       md_format := format_rnx |}
    {| md_dims :=
         [to_int (get_param_size (rnn_mode mt) (dir_count ms) (input_size ms)
                                 (num_units ms) (num_layers ms))];
       md_format := format_x |}.

(** The layout of [input_h] the op documents, for the batch size and
    direction count derived from [input]: [[batch_size, num_units]], or
    [[dir_count * num_layers, batch_size, num_units]], the dimensions
    being within [int]. *)
Definition hidden_as_documented (dir b : Z) (h : TensorShape) : Prop :=
  (exists n, fits_int n /\ h = [b; n]) \/
  (exists L n, 0 <= L /\ dir * L <= INT_MAX /\ fits_int n /\
               h = [dir * L; b; n]).

(** The same inputs with another [input_c]. *)
Definition with_input_c (ctx : OpKernelContext) (c : Tensor)
    : OpKernelContext :=
  {| input := input ctx; input_h := input_h ctx; input_c := c;
     params := params ctx |}.

(** Whether a status message prints the given shape. *)
Definition prints_shape (st : Status) (s : TensorShape) : Prop :=
  match st with
  | InvalidArgument message => In (ShapeDebugString s) message
  end.

(** Shorthands for writing concrete calls. *)
Definition tensor (s : TensorShape) : Tensor := {| shape := s |}.

Definition scalar_i32 (v : Z) : Int32Tensor :=
  {| i32_shape := []; i32_flat := [v] |}.

Definition model (k : algorithm) (d : direction) : MkldnnModelTypes :=
  {| rnn_mode := k; rnn_input_mode := rnn_linear_input;
     rnn_direction_mode := d |}.

Definition forward_context (x_ h c w : TensorShape) : OpKernelContext :=
  {| input := tensor x_; input_h := tensor h; input_c := tensor c;
     params := tensor w |}.

Definition backprop_context
    (ctx : OpKernelContext) (dy dhy dcy ws : TensorShape) : BackpropContext :=
  {| forward_inputs := ctx; output_backprop := tensor dy;
     output_h_backprop := tensor dhy; output_c_backprop := tensor dcy;
     reserve_space_in := tensor ws |}.

(** A vendor library that asks for the same workspace whatever the
    descriptor. *)
Definition fixed_workspace (bytes : Z) : workspace_get_size := fun _ => bytes.

(* ================================================================== *)
(** * Further parts of the two files *)

(** [MkldnnRNNKernelCommon::seed()]:
    [(static_cast<uint64>(seed_) << 32) | seed2_], both members being
    [int]; the shift is a [uint64] shift and [seed2_] is converted to
    [uint64] for the [|]. *)
Definition to_uint64 (z : Z) : Z := z mod 2 ^ 64.

Definition seed (seed_ seed2_ : Z) : Z :=
  Z.lor (to_uint64 (Z.shiftl (to_uint64 seed_) 32)) (to_uint64 seed2_).

(** The values an attribute may take and its default, as the op
    registration declares them ([kRNNModeAttrs], [kRNNInputModeAttrs],
    [kRNNDirectionAttrs]). *)
Record AttrDecl : Type := {
  attr_values : list string;
  attr_default : string
}.

Definition kRNNModeAttrs : AttrDecl :=
  {| attr_values := ["rnn_relu"; "rnn_tanh"; "lstm"; "gru"]%string;
     attr_default := "lstm"%string |}.

Definition kRNNInputModeAttrs : AttrDecl :=
  {| attr_values := ["linear_input"; "skip_input"; "auto_select"]%string;
     attr_default := "auto_select"%string |}.

Definition kRNNDirectionAttrs : AttrDecl :=
  {| attr_values := ["unidirectional"; "bidirectional"]%string;
     attr_default := "unidirectional"%string |}.

(** Shape function of [MkldnnRNNParamsSize]: [c->Vector(1)]. *)
Definition MkldnnRNNParamsSize_ShapeFn : Result ShapeHandle :=
  Ok (MakeShape [Some 1]).

Record InferredBackpropShapes : Type := {
  inferred_input_backprop : ShapeHandle;
  inferred_input_h_backprop : ShapeHandle;
  inferred_input_c_backprop : ShapeHandle;
  inferred_params_backprop : ShapeHandle
}.

(** Shape function of [MkldnnRNNBackprop]: each output takes the shape of
    the input of the same position. *)
Definition MkldnnRNNBackprop_ShapeFn
    (input_shape_ input_h_shape_ input_c_shape_ params_shape_ : ShapeHandle)
    : Result InferredBackpropShapes :=
  Ok {| inferred_input_backprop := input_shape_;
        inferred_input_h_backprop := input_h_shape_;
        inferred_input_c_backprop := input_c_shape_;
        inferred_params_backprop := params_shape_ |}.

(** A fully known shape, as a [ShapeHandle]. *)
Definition known_shape (s : TensorShape) : ShapeHandle :=
  Some (map (fun d => Some d) s).


Definition product_Multiply : Multiply_fn :=
  fun d k => match d with Some n => Ok (Some (n * k)) | None => Ok None end.

(** The lines the parameter-size kernel logs for its three inputs. *)
Definition scalar_complaints (nl nu isz : Int32Tensor) : list string :=
  (if IsScalar (i32_shape nl) then []
   else ["num_layers is not a scalar"%string])
  ++ (if IsScalar (i32_shape nu) then []
      else ["num_units is not a scalar"%string])
  ++ (if IsScalar (i32_shape isz) then []
      else ["input_size is not a scalar"%string]).

(** The direction count of a model. *)
Definition dir_count_of (mt : MkldnnModelTypes) : Z :=
  if direction_eqb (rnn_direction_mode mt) rnn_bidirectional then 2 else 1.

(* ================================================================== *)
(** * Lemmas on machine integers *)

Lemma to_int_range (z : Z) : fits_int (to_int z).
Proof.
  unfold fits_int, to_int, INT_MIN, INT_MAX, half, modulus.
  pose proof (Z.mod_pos_bound (z + 2 ^ 31) (2 ^ 32) ltac:(lia)). lia.
Qed.

Lemma to_int_fits (z : Z) : fits_int z -> to_int z = z.
Proof.
  unfold fits_int, to_int, INT_MIN, INT_MAX, half, modulus. intros H.
  rewrite Z.mod_small by lia. lia.
Qed.

Lemma to_int_mod (z : Z) : to_int z mod modulus = z mod modulus.
Proof.
  unfold to_int. rewrite Zminus_mod_idemp_l. f_equal. lia.
Qed.

Lemma to_int_congr (a b : Z) : eqm modulus a b -> to_int a = to_int b.
Proof.
  unfold eqm. intros H. unfold to_int.
  rewrite (Z.add_mod a), (Z.add_mod b) by (unfold modulus; lia).
  now rewrite H.
Qed.

Lemma to_int_eqm (z : Z) : eqm modulus (to_int z) z.
Proof. exact (to_int_mod z). Qed.

#[local] Instance eqm_modulus_equiv : Equivalence (eqm modulus) :=
  eqm_setoid modulus.
#[local] Instance add_eqm_modulus :
  Proper (eqm modulus ==> eqm modulus ==> eqm modulus) Z.add :=
  Zplus_eqm modulus.
#[local] Instance sub_eqm_modulus :
  Proper (eqm modulus ==> eqm modulus ==> eqm modulus) Z.sub :=
  Zminus_eqm modulus.
#[local] Instance mul_eqm_modulus :
  Proper (eqm modulus ==> eqm modulus ==> eqm modulus) Z.mul :=
  Zmult_eqm modulus.

(** Wrapping after every step is wrapping once at the end. *)
Lemma get_param_size_wraps (k : algorithm) (g d i u l : Z) :
  Spec.gate_multiplier k = Some g ->
  get_param_size k d i u l = to_int (Spec.param_size g d i u l).
Proof.
  intros Hg.
  destruct k; simpl in Hg; inversion Hg; subst g; clear Hg;
    unfold get_param_size, Spec.param_size; cbv zeta;
    unfold int_mul, int_add, int_sub;
    apply to_int_congr;
    rewrite !to_int_eqm; unfold eqm; f_equal; ring.
Qed.

(* ================================================================== *)
(** * The parameter-size calculator *)

Lemma gate_multiplier_pos (k : algorithm) (g : Z) :
  Spec.gate_multiplier k = Some g -> 1 <= g <= 4.
Proof. destruct k; simpl; intros H; inversion H; lia. Qed.

(** On non-negative sizes with at least one layer the formula is
    non-negative and grows with each of its size arguments. *)
Lemma param_size_nonneg (g d i u l : Z) :
  0 <= g -> 0 <= d -> 0 <= i -> 0 <= u -> 1 <= l ->
  0 <= Spec.param_size g d i u l.
Proof.
  intros Hg Hd Hi Hu Hl. unfold Spec.param_size.
  apply Z.mul_nonneg_nonneg; [apply Z.add_nonneg_nonneg|assumption];
    repeat apply Z.mul_nonneg_nonneg; lia.
Qed.

Lemma param_size_mono (g d i u l i' u' l' : Z) :
  0 <= g -> 0 <= d -> 0 <= i <= i' -> 0 <= u <= u' -> 1 <= l <= l' ->
  Spec.param_size g d i u l <= Spec.param_size g d i' u' l'.
Proof.
  intros Hg Hd Hi Hu Hl. unfold Spec.param_size.
  apply Z.mul_le_mono_nonneg_r; [assumption|].
  assert (Hgu : 0 <= g * u <= g * u')
    by (split; [apply Z.mul_nonneg_nonneg|apply Z.mul_le_mono_nonneg_l]; lia).
  assert (Hgl : 0 <= g * (l - 1) <= g * (l' - 1))
    by (split; [apply Z.mul_nonneg_nonneg|apply Z.mul_le_mono_nonneg_l]; lia).
  assert (Hglu : 0 <= g * (l - 1) * u <= g * (l' - 1) * u')
    by (split; [apply Z.mul_nonneg_nonneg|apply Z.mul_le_mono_nonneg]; lia).
  apply Z.add_le_mono; apply Z.mul_le_mono_nonneg; lia.
Qed.

(** C1 (as amended).  For every recognized recurrence kind, with [g] its
    gate multiplier (1 for plain relu/tanh, 4 for LSTM, 3 for GRU), the size
    computed by [get_param_size] is the value
    [(g*num_units*(input_size+num_units+2)
      + g*(num_layers-1)*num_units*(2*num_units+2)) * dir_count]
    brought into the range of [int], hence that value itself whenever it
    fits a signed 32-bit [int]; for LSTM, one direction, two layers, four
    units and input size three it is 304. *)
Theorem get_param_size_formula (k : algorithm) (g d i u l : Z) :
  Spec.gate_multiplier k = Some g ->
  get_param_size k d i u l = to_int (Spec.param_size g d i u l) /\
  (fits_int (Spec.param_size g d i u l) ->
   get_param_size k d i u l =
   (g * u * (i + u + 2) + g * (l - 1) * u * (2 * u + 2)) * d) /\
  get_param_size rnn_lstm 1 3 4 2 = 304.
Proof.
  intros Hg. split; [|split].
  - now apply get_param_size_wraps.
  - intros Hfit. rewrite (get_param_size_wraps k g) by assumption.
    now rewrite to_int_fits.
  - reflexivity.
Qed.

Lemma get_param_size_formula_witness :
  Spec.gate_multiplier rnn_gru = Some 3 /\
  fits_int (Spec.param_size 3 2 2 5 1) /\
  get_param_size rnn_gru 2 2 5 1 = 270.
Proof.
  destruct (get_param_size_formula rnn_gru 3 2 2 5 1 eq_refl) as (_ & H & _).
  assert (Hfit : fits_int (Spec.param_size 3 2 2 5 1))
    by (vm_compute; split; discriminate).
  split; [reflexivity | split; [exact Hfit | exact (H Hfit)]].
Defined.

(** C1, counterexample: an LSTM with one layer, one direction, input size 0
    and 23170 units.  The formula gives 2147580960; the [int] arithmetic of
    [get_param_size] gives -2147386336. *)
Lemma get_param_size_formula_overflow :
  Spec.gate_multiplier rnn_lstm = Some 4 /\
  get_param_size rnn_lstm 1 0 23170 1 = -2147386336 /\
  (4 * 23170 * (0 + 23170 + 2) + 4 * (1 - 1) * 23170 * (2 * 23170 + 2)) * 1
    = 2147580960 /\
  get_param_size rnn_lstm 1 0 23170 1 <>
  (4 * 23170 * (0 + 23170 + 2) + 4 * (1 - 1) * 23170 * (2 * 23170 + 2)) * 1.
Proof. repeat split; vm_compute; congruence. Qed.

(** C8 (as amended).  [get_param_size] is a function of its five arguments,
    and for a recognized kind, [dir_count] 1 or 2, [input_size >= 0],
    [num_units >= 0] and [num_layers >= 1] it does not decrease when
    [num_layers], [num_units] or [input_size] grow (one of them or several),
    as long as the size formula at the larger arguments does not exceed
    [INT_MAX]. *)
Theorem get_param_size_monotone (k : algorithm) (g d i u l i' u' l' : Z) :
  Spec.gate_multiplier k = Some g ->
  d = 1 \/ d = 2 ->
  0 <= i <= i' -> 0 <= u <= u' -> 1 <= l <= l' ->
  Spec.param_size g d i' u' l' <= INT_MAX ->
  (forall r1 r2, r1 = get_param_size k d i u l ->
                 r2 = get_param_size k d i u l -> r1 = r2) /\
  get_param_size k d i u l <= get_param_size k d i' u' l'.
Proof.
  intros Hg Hd Hi Hu Hl Hmax. split; [congruence|].
  pose proof (gate_multiplier_pos k g Hg) as Hgp.
  assert (0 <= d) by lia.
  pose proof (param_size_mono g d i u l i' u' l'
                ltac:(lia) ltac:(lia) Hi Hu Hl) as Hmono.
  pose proof (param_size_nonneg g d i u l
                ltac:(lia) ltac:(lia) ltac:(lia) ltac:(lia) ltac:(lia)) as H0.
  rewrite !(get_param_size_wraps k g) by assumption.
  rewrite !to_int_fits; [assumption| |];
    unfold fits_int, INT_MIN, half in *; lia.
Qed.

Lemma get_param_size_monotone_witness :
  get_param_size rnn_lstm 2 3 4 2 <= get_param_size rnn_lstm 2 5 6 3.
Proof.
  refine (proj2 (get_param_size_monotone rnn_lstm 4 2 3 4 2 5 6 3
                   eq_refl (or_intror eq_refl) _ _ _ _)).
  - lia.
  - lia.
  - lia.
  - vm_compute. discriminate.
Defined.

(** C8, counterexample: with every argument in the stated domain, going from
    23169 to 23170 units (LSTM, one layer, one direction, input size 0)
    makes the computed size drop from 2147395596 to -2147386336. *)
Lemma get_param_size_not_monotone :
  Spec.gate_multiplier rnn_lstm = Some 4 /\
  0 <= 23169 <= 23170 /\
  get_param_size rnn_lstm 1 0 23169 1 = 2147395596 /\
  get_param_size rnn_lstm 1 0 23170 1 = -2147386336 /\
  ~ (get_param_size rnn_lstm 1 0 23169 1 <= get_param_size rnn_lstm 1 0 23170 1).
Proof. repeat split; vm_compute; congruence. Qed.

(* ================================================================== *)
(** * Shapes and dimension reads *)

Lemma shape_eqb_eq (a b : TensorShape) : shape_eqb a b = true <-> a = b.
Proof.
  revert b. induction a as [|n a IH]; intros [|m b]; simpl;
    try (split; [discriminate | congruence]); [tauto|].
  rewrite andb_true_iff, Z.eqb_eq, IH. split.
  - intros [-> ->]. reflexivity.
  - intros H. inversion H. auto.
Qed.

Lemma shape_eqb_neq (a b : TensorShape) : shape_eqb a b = false <-> a <> b.
Proof.
  rewrite <- shape_eqb_eq. destruct (shape_eqb a b); split; congruence.
Qed.

Lemma shape_eqb_refl (a : TensorShape) : shape_eqb a a = true.
Proof. now apply shape_eqb_eq. Qed.

Lemma dims_eqb_2 (s : TensorShape) :
  (dims s =? 2) = true <-> List.length s = 2%nat.
Proof. unfold dims. rewrite Z.eqb_eq. lia. Qed.

Lemma dim_size_in_range (s : TensorShape) (d : nat) :
  (d < List.length s)%nat -> exists n, dim_size s d = Ok n.
Proof.
  intros H. unfold dim_size.
  destruct (nth_error s d) as [n|] eqn:E; [now exists n|].
  apply nth_error_None in E. lia.
Qed.

Lemma dim_size_not_failed (s : TensorShape) (d : nat) (st : Status) :
  dim_size s d <> Failed st.
Proof. unfold dim_size. destruct (nth_error s d); discriminate. Qed.

Lemma dim_size_aborted (s : TensorShape) (d : nat) (f : fault) :
  dim_size s d = Aborted f -> f = DimIndexOutOfRange.
Proof.
  unfold dim_size. destruct (nth_error s d); intros H; inversion H.
  reflexivity.
Qed.

Lemma MakeTensorShape_inv (l : list Z) (s : TensorShape) :
  MakeTensorShape l = Ok s -> s = l /\ AddDims 1 l = true.
Proof.
  unfold MakeTensorShape. destruct (AddDims 1 l); intros H; inversion H.
  split; reflexivity.
Qed.

Lemma MakeTensorShape_valid (l : list Z) :
  AddDims 1 l = true -> MakeTensorShape l = Ok l.
Proof. unfold MakeTensorShape. now intros ->. Qed.

Lemma MakeTensorShape_not_failed (l : list Z) (st : Status) :
  MakeTensorShape l <> Failed st.
Proof. unfold MakeTensorShape. destruct (AddDims 1 l); discriminate. Qed.

Lemma MakeTensorShape_aborted (l : list Z) (f : fault) :
  MakeTensorShape l = Aborted f -> f = InvalidShapeSize.
Proof.
  unfold MakeTensorShape. destruct (AddDims 1 l); intros H; inversion H.
  reflexivity.
Qed.


(* ================================================================== *)
(** * The shape resolver *)

(** Case analysis over the branches, dimension reads and shape
    constructions of the resolver; a shape that was built is replaced by its
    sizes. *)
Ltac resolver_cases :=
  repeat match goal with
    | |- context [if (dims ?s =? 2) then _ else _] =>
        let E := fresh "Erank" in
        destruct (dims s =? 2) eqn:E; cbn [bind]
    | |- context [dim_size ?s ?d] =>
        let E := fresh "Edim" in
        destruct (dim_size s d) eqn:E; cbn [bind];
        [ | exfalso; exact (dim_size_not_failed _ _ _ E) | ]
    | |- context [MakeTensorShape ?l] =>
        let E := fresh "Eshape" in
        let built := fresh "built" in
        destruct (MakeTensorShape l) as [built|?|?] eqn:E; cbn [bind];
        [ apply MakeTensorShape_inv in E; destruct E as [-> E]
        | exfalso; exact (MakeTensorShape_not_failed _ _ E)
        | ]
    end.

(** The out-parameters after a successful call: [input_c] is assigned only
    for a model with input-c, and then its shape is that of [input_h]. *)
Lemma ExtractForwardInput_pointers
    (ctx : OpKernelContext) (mt : MkldnnModelTypes) (fi : ForwardInput) :
  ExtractForwardInput ctx mt = Ok fi ->
  Tx fi = input ctx /\ Thx fi = input_h ctx /\ Tweights fi = params ctx /\
  Tcx fi = (if HasInputC mt then Some (input_c ctx) else None) /\
  (HasInputC mt = true -> shape (input_h ctx) = shape (input_c ctx)).
Proof.
  unfold ExtractForwardInput. resolver_cases; try discriminate;
    destruct (HasInputC mt); cbn [bind negb];
    try destruct (shape_eqb (shape (input_h ctx)) (shape (input_c ctx))) eqn:Ec;
    cbn [bind negb]; try discriminate;
    intros H; inversion H; subst; cbn;
    repeat split; try reflexivity; intros; try discriminate;
    now apply shape_eqb_eq.
Qed.

(** A mismatch of the cell-state shape ends the resolver with the status of
    the source whenever the steps before the check go through, which they
    do when the same inputs resolve with an [input_c] shaped like
    [input_h]. *)
Lemma ExtractForwardInput_cell_mismatch
    (ctx : OpKernelContext) (mt : MkldnnModelTypes) (fi : ForwardInput) :
  HasInputC mt = true ->
  shape (input_c ctx) <> shape (input_h ctx) ->
  ExtractForwardInput (with_input_c ctx (input_h ctx)) mt = Ok fi ->
  ExtractForwardInput ctx mt =
  Failed (InvalidArgument
            [Text "input_h and input_c must have the same shape: ";
             ShapeDebugString (shape (input_h ctx)); Text " ";
             ShapeDebugString (shape (input_c ctx))]).
Proof.
  intros Hc Hne.
  assert (Eq : shape_eqb (shape (input_h ctx)) (shape (input_c ctx)) = false)
    by (apply shape_eqb_neq; congruence).
  unfold ExtractForwardInput.
  cbn [with_input_c input input_h input_c params].
  rewrite Hc, Eq, shape_eqb_refl. cbn [negb].
  resolver_cases; cbn [bind];
    first [ intros _; reflexivity | intros H; discriminate H ].
Qed.

(** The check of the cell-state shape is the only source of a status. *)
Lemma ExtractForwardInput_failed_status
    (ctx : OpKernelContext) (mt : MkldnnModelTypes) (st : Status) :
  ExtractForwardInput ctx mt = Failed st ->
  st = InvalidArgument
         [Text "input_h and input_c must have the same shape: ";
          ShapeDebugString (shape (input_h ctx)); Text " ";
          ShapeDebugString (shape (input_c ctx))].
Proof.
  unfold ExtractForwardInput. resolver_cases; try discriminate;
    destruct (HasInputC mt); cbn [bind negb]; try discriminate;
    destruct (shape_eqb (shape (input_h ctx)) (shape (input_c ctx)));
    cbn [bind negb]; try discriminate;
    intros H; inversion H; reflexivity.
Qed.

(** Finishing a goal about a resolver call once its branches are split:
    decide the cell-state check, then read the record off the [Ok]. *)
Ltac resolver_finish ctx mt :=
  destruct (HasInputC mt) eqn:?; cbn [bind negb];
  try match goal with
    | |- context [shape_eqb ?a (shape (input_c ctx))] =>
        destruct (shape_eqb a (shape (input_c ctx))) eqn:?
    end;
  cbn [bind negb]; try discriminate;
  let H := fresh "Hok" in
  intros H; inversion H; subst; clear H; cbn.

(** Evaluating the rank test and the dimension reads of a shape given as
    an explicit list. *)
Ltac eval_reads :=
  repeat match goal with
    | |- context [dims (?a :: ?l) =? 2] =>
        let b := eval cbv in (dims (a :: l) =? 2) in
        change (dims (a :: l) =? 2) with b
    | |- context [dim_size (?a :: ?l) ?d] =>
        let r := eval cbv [dim_size nth_error] in (dim_size (a :: l) d) in
        change (dim_size (a :: l) d) with r
    end;
  cbn [bind].

Lemma ExtractForwardInput_dir_count
    (ctx : OpKernelContext) (mt : MkldnnModelTypes) (fi : ForwardInput) :
  ExtractForwardInput ctx mt = Ok fi ->
  dir_count (model_shapes fi) =
  (if direction_eqb (rnn_direction_mode mt) rnn_bidirectional then 2 else 1).
Proof.
  unfold ExtractForwardInput. resolver_cases; try discriminate;
    resolver_finish ctx mt; reflexivity.
Qed.

Lemma ExtractForwardInput_rank2_input
    (ctx : OpKernelContext) (mt : MkldnnModelTypes) (fi : ForwardInput)
    (d0 d1 : Z) :
  shape (input ctx) = [d0; d1] ->
  ExtractForwardInput ctx mt = Ok fi ->
  let ms := model_shapes fi in
  seq_length ms = 1 /\ batch_size ms = to_int d0 /\ input_size ms = to_int d1 /\
  input_shape ms = [1; to_int d0; to_int d1] /\
  output_shape ms = [batch_size ms; int_mul (dir_count ms) (num_units ms)].
Proof.
  intros Hs. unfold ExtractForwardInput. rewrite Hs. eval_reads.
  resolver_cases; try discriminate; resolver_finish ctx mt; auto.
Qed.

Lemma ExtractForwardInput_rank3_input
    (ctx : OpKernelContext) (mt : MkldnnModelTypes) (fi : ForwardInput)
    (d0 d1 d2 : Z) :
  shape (input ctx) = [d0; d1; d2] ->
  ExtractForwardInput ctx mt = Ok fi ->
  let ms := model_shapes fi in
  seq_length ms = to_int d0 /\ batch_size ms = to_int d1 /\
  input_size ms = to_int d2 /\ input_shape ms = [d0; d1; d2] /\
  output_shape ms =
  [seq_length ms; batch_size ms; int_mul (dir_count ms) (num_units ms)].
Proof.
  intros Hs. unfold ExtractForwardInput. rewrite Hs. eval_reads.
  resolver_cases; try discriminate; resolver_finish ctx mt; auto.
Qed.

Lemma ExtractForwardInput_rank2_hidden
    (ctx : OpKernelContext) (mt : MkldnnModelTypes) (fi : ForwardInput)
    (h0 h1 : Z) :
  shape (input_h ctx) = [h0; h1] ->
  ExtractForwardInput ctx mt = Ok fi ->
  let ms := model_shapes fi in
  num_layers ms = 1 /\ num_units ms = to_int h1 /\
  hidden_state_shape ms = [batch_size ms; num_units ms].
Proof.
  intros Hs. unfold ExtractForwardInput. rewrite Hs. eval_reads.
  resolver_cases; try discriminate; resolver_finish ctx mt; auto.
Qed.

Lemma ExtractForwardInput_rank3_hidden
    (ctx : OpKernelContext) (mt : MkldnnModelTypes) (fi : ForwardInput)
    (h0 h1 h2 : Z) :
  shape (input_h ctx) = [h0; h1; h2] ->
  ExtractForwardInput ctx mt = Ok fi ->
  let ms := model_shapes fi in
  num_layers ms = to_int (Z.quot h0 (dir_count ms)) /\
  num_units ms = to_int h2 /\
  hidden_state_shape ms =
  [int_mul (dir_count ms) (num_layers ms); batch_size ms; num_units ms].
Proof.
  intros Hs. unfold ExtractForwardInput. rewrite Hs. eval_reads.
  resolver_cases; try discriminate; resolver_finish ctx mt; auto.
Qed.

(** The derived shapes depend on the shapes of [input] and [input_h]
    only. *)
Lemma ExtractForwardInput_same_shapes
    (ctx ctx' : OpKernelContext) (mt : MkldnnModelTypes)
    (fi fi' : ForwardInput) :
  shape (input ctx') = shape (input ctx) ->
  shape (input_h ctx') = shape (input_h ctx) ->
  ExtractForwardInput ctx mt = Ok fi ->
  ExtractForwardInput ctx' mt = Ok fi' ->
  model_shapes fi' = model_shapes fi.
Proof.
  intros Hi Hh. unfold ExtractForwardInput. rewrite Hi, Hh.
  resolver_cases; try discriminate;
    destruct (HasInputC mt); cbn [bind negb];
    try destruct (shape_eqb (shape (input_h ctx)) (shape (input_c ctx)));
    try destruct (shape_eqb (shape (input_h ctx)) (shape (input_c ctx')));
    cbn [bind negb]; try discriminate;
    intros H1 H2; inversion H1; inversion H2; reflexivity.
Qed.



(* ================================================================== *)
(** * The kernels after shape resolution *)

Lemma forward_resolver_failed
    (get_size : workspace_get_size) (mt : MkldnnModelTypes)
    (is_training : bool) (ctx : OpKernelContext) (st : Status) :
  ExtractForwardInput ctx mt = Failed st ->
  MkldnnRNNForwardOp_Compute get_size mt is_training ctx = Failed st.
Proof.
  intros H. unfold MkldnnRNNForwardOp_Compute. now rewrite H.
Qed.

Lemma backward_resolver_failed
    (get_size : workspace_get_size) (mt : MkldnnModelTypes)
    (bctx : BackpropContext) (st : Status) :
  ExtractForwardInput (forward_inputs bctx) mt = Failed st ->
  MkldnnRNNBackwardOp_Compute get_size mt bctx = Failed st.
Proof.
  intros H. unfold MkldnnRNNBackwardOp_Compute. now rewrite H.
Qed.

Lemma forward_resolver_aborted
    (get_size : workspace_get_size) (mt : MkldnnModelTypes)
    (is_training : bool) (ctx : OpKernelContext) (f : fault) :
  ExtractForwardInput ctx mt = Aborted f ->
  MkldnnRNNForwardOp_Compute get_size mt is_training ctx = Aborted f.
Proof.
  intros H. unfold MkldnnRNNForwardOp_Compute. now rewrite H.
Qed.

Lemma backward_resolver_aborted
    (get_size : workspace_get_size) (mt : MkldnnModelTypes)
    (bctx : BackpropContext) (f : fault) :
  ExtractForwardInput (forward_inputs bctx) mt = Aborted f ->
  MkldnnRNNBackwardOp_Compute get_size mt bctx = Aborted f.
Proof.
  intros H. unfold MkldnnRNNBackwardOp_Compute. now rewrite H.
Qed.

(** After shape resolution the forward kernel has one more step that can
    end the call, the allocation of the reserve space in training; then it
    returns these outputs. *)
Lemma forward_after_resolve
    (get_size : workspace_get_size) (mt : MkldnnModelTypes)
    (is_training : bool) (ctx : OpKernelContext) (fi : ForwardInput) :
  ExtractForwardInput ctx mt = Ok fi ->
  let ms := model_shapes fi in
  let d := rnn_desc_of
             (if is_training then forward_training else forward_inference)
             mt ms in
  MkldnnRNNForwardOp_Compute get_size mt is_training ctx =
  (workspace_shape <-
     (if is_training
      then MakeTensorShape [to_int (get_size d / sizeof_T)] else Ok []) ;;
   Ok {| output := {| shape := output_shape ms |};
         output_h := {| shape := hidden_state_shape ms |};
         output_c :=
           {| shape := if HasInputC mt then hidden_state_shape ms else [] |};
         reserve_space := {| shape := workspace_shape |};
         forward_call :=
           {| call_desc := d; call_fwd_desc := d;
              call_cell_state := HasInputC mt;
              call_workspace :=
                if is_training then Some (get_size d) else None |} |}).
Proof.
  intros H ms d.
  destruct (ExtractForwardInput_pointers ctx mt fi H) as (_ & _ & _ & Hc & _).
  unfold MkldnnRNNForwardOp_Compute. rewrite H. cbn [bind]. rewrite Hc.
  subst d ms. unfold rnn_desc_of.
  destruct (HasInputC mt), is_training; reflexivity.
Qed.



Lemma forward_ok_inv
    (get_size : workspace_get_size) (mt : MkldnnModelTypes)
    (is_training : bool) (ctx : OpKernelContext) (outs : ForwardOutputs) :
  MkldnnRNNForwardOp_Compute get_size mt is_training ctx = Ok outs ->
  exists fi,
    ExtractForwardInput ctx mt = Ok fi /\
    shape (output outs) = output_shape (model_shapes fi) /\
    shape (output_h outs) = hidden_state_shape (model_shapes fi) /\
    shape (output_c outs) =
      (if HasInputC mt then hidden_state_shape (model_shapes fi) else []) /\
    call_desc (forward_call outs) =
      rnn_desc_of (if is_training then forward_training
                   else forward_inference) mt (model_shapes fi).
Proof.
  intros Hf.
  destruct (ExtractForwardInput ctx mt) as [fi|st|f] eqn:E.
  - exists fi. split; [reflexivity|].
    rewrite (forward_after_resolve get_size mt is_training ctx fi E) in Hf.
    destruct (if is_training then MakeTensorShape _ else Ok []);
      cbn [bind] in Hf; try discriminate.
    inversion Hf; subst; cbn. repeat split.
  - rewrite (forward_resolver_failed _ _ _ _ _ E) in Hf. discriminate.
  - rewrite (forward_resolver_aborted _ _ _ _ _ E) in Hf. discriminate.
Qed.



Section BackwardChecks.

Variable get_size : workspace_get_size.
Variable mt : MkldnnModelTypes.
Variable bctx : BackpropContext.
Variable fi : ForwardInput.
Hypothesis Hresolved :
  ExtractForwardInput (forward_inputs bctx) mt = Ok fi.

Let ms := model_shapes fi.

(** A rejected output gradient on a model with input-c: the status is
    built from the shapes of [input_h] and [input_c]. *)
Lemma backward_dy_mismatch_cell :
  HasInputC mt = true ->
  output_shape ms <> shape (output_backprop bctx) ->
  MkldnnRNNBackwardOp_Compute get_size mt bctx =
  Failed (InvalidArgument
            [Text "h and c must have the same shape: ";
             ShapeDebugString (shape (input_h (forward_inputs bctx)));
             Text " ";
             ShapeDebugString (shape (input_c (forward_inputs bctx)))]).
Proof.
  intros Hc Hne. apply shape_eqb_neq in Hne.
  destruct (ExtractForwardInput_pointers _ _ _ Hresolved)
    as (_ & Hh & _ & Hp & _).
  unfold MkldnnRNNBackwardOp_Compute. rewrite Hresolved. cbn [bind].
  fold ms. rewrite Hne, Hp, Hh, Hc. reflexivity.
Qed.

(** A rejected output gradient on a model without input-c: building the
    status dereferences the null [Tcx]. *)
Lemma backward_dy_mismatch_no_cell :
  HasInputC mt = false ->
  output_shape ms <> shape (output_backprop bctx) ->
  MkldnnRNNBackwardOp_Compute get_size mt bctx =
  Aborted NullPointerDereference.
Proof.
  intros Hc Hne. apply shape_eqb_neq in Hne.
  destruct (ExtractForwardInput_pointers _ _ _ Hresolved)
    as (_ & _ & _ & Hp & _).
  unfold MkldnnRNNBackwardOp_Compute. rewrite Hresolved. cbn [bind].
  fold ms. rewrite Hne, Hp, Hc. reflexivity.
Qed.

(** A rejected hidden-state gradient. *)
Lemma backward_dhy_mismatch :
  output_shape ms = shape (output_backprop bctx) ->
  shape (output_h_backprop bctx) <> hidden_state_shape ms ->
  MkldnnRNNBackwardOp_Compute get_size mt bctx =
  Failed (InvalidArgument
            [Text "Invalid dhy shape: ";
             ShapeDebugString (shape (output_h_backprop bctx)); Text " ";
             ShapeDebugString (hidden_state_shape ms)]).
Proof.
  intros Hy Hne. apply shape_eqb_eq in Hy. apply shape_eqb_neq in Hne.
  unfold MkldnnRNNBackwardOp_Compute. rewrite Hresolved. cbn [bind].
  fold ms. rewrite Hy. cbn [OP_REQUIRES bind]. rewrite Hne. reflexivity.
Qed.

(** A rejected cell-state gradient. *)
Lemma backward_dcy_mismatch :
  HasInputC mt = true ->
  output_shape ms = shape (output_backprop bctx) ->
  shape (output_h_backprop bctx) = hidden_state_shape ms ->
  shape (output_c_backprop bctx) <> hidden_state_shape ms ->
  MkldnnRNNBackwardOp_Compute get_size mt bctx =
  Failed (InvalidArgument
            [Text "Invalid dcy shape: ";
             ShapeDebugString (shape (output_c_backprop bctx)); Text " ";
             ShapeDebugString (hidden_state_shape ms)]).
Proof.
  intros Hc Hy Hh Hne.
  apply shape_eqb_eq in Hy, Hh. apply shape_eqb_neq in Hne.
  unfold MkldnnRNNBackwardOp_Compute. rewrite Hresolved. cbn [bind].
  fold ms. rewrite Hy. cbn [OP_REQUIRES bind]. rewrite Hh.
  cbn [OP_REQUIRES bind]. rewrite Hc, Hne. reflexivity.
Qed.

(** With every gradient accepted the kernel returns; its forward
    descriptor is the training one of the resolved shapes. *)
Lemma backward_after_checks :
  output_shape ms = shape (output_backprop bctx) ->
  shape (output_h_backprop bctx) = hidden_state_shape ms ->
  (HasInputC mt = true ->
   shape (output_c_backprop bctx) = hidden_state_shape ms) ->
  let ctx := forward_inputs bctx in
  MkldnnRNNBackwardOp_Compute get_size mt bctx =
  Ok {| input_backprop := {| shape := shape (input ctx) |};
        input_h_backprop := {| shape := shape (input_h ctx) |};
        input_c_backprop :=
          {| shape := if HasInputC mt then shape (input_c ctx) else [] |};
        params_backprop := {| shape := shape (params ctx) |};
        backward_call :=
          {| call_desc := rnn_desc_of backward mt ms;
             call_fwd_desc := rnn_desc_of forward_training mt ms;
             call_cell_state := HasInputC mt;
             call_workspace :=
               Some (get_size (rnn_desc_of forward_training mt ms)) |} |}.
Proof.
  intros Hy Hh Hcy ctx.
  apply shape_eqb_eq in Hy, Hh.
  destruct (ExtractForwardInput_pointers _ _ _ Hresolved)
    as (Hx & Hhx & Hw & Hp & _).
  unfold MkldnnRNNBackwardOp_Compute. rewrite Hresolved. cbn [bind].
  fold ms. rewrite Hy. cbn [OP_REQUIRES bind]. rewrite Hh.
  cbn [OP_REQUIRES bind]. rewrite Hp, Hx, Hhx, Hw.
  destruct (HasInputC mt).
  - specialize (Hcy eq_refl). apply shape_eqb_eq in Hcy. rewrite Hcy.
    reflexivity.
  - reflexivity.
Qed.

End BackwardChecks.

(** A returning backward call resolved the shapes and built the training
    forward descriptor of those shapes. *)
Lemma backward_ok_inv
    (get_size : workspace_get_size) (mt : MkldnnModelTypes)
    (bctx : BackpropContext) (bouts : BackwardOutputs) :
  MkldnnRNNBackwardOp_Compute get_size mt bctx = Ok bouts ->
  exists fi,
    ExtractForwardInput (forward_inputs bctx) mt = Ok fi /\
    call_fwd_desc (backward_call bouts) =
      rnn_desc_of forward_training mt (model_shapes fi) /\
    call_workspace (backward_call bouts) =
      Some (get_size (rnn_desc_of forward_training mt (model_shapes fi))).
Proof.
  intros Hok.
  destruct (ExtractForwardInput (forward_inputs bctx) mt) as [fi|st|f] eqn:E.
  - exists fi. split; [reflexivity|].
    destruct (shape_eqb (output_shape (model_shapes fi))
                        (shape (output_backprop bctx))) eqn:Ey.
    2:{ apply shape_eqb_neq in Ey. destruct (HasInputC mt) eqn:Ec.
        - rewrite (backward_dy_mismatch_cell get_size mt bctx fi E Ec Ey) in Hok.
          discriminate.
        - rewrite (backward_dy_mismatch_no_cell get_size mt bctx fi E Ec Ey)
            in Hok.
          discriminate. }
    apply shape_eqb_eq in Ey.
    destruct (shape_eqb (shape (output_h_backprop bctx))
                        (hidden_state_shape (model_shapes fi))) eqn:Eh.
    2:{ apply shape_eqb_neq in Eh.
        rewrite (backward_dhy_mismatch get_size mt bctx fi E Ey Eh) in Hok.
        discriminate. }
    apply shape_eqb_eq in Eh.
    assert (Hcy : HasInputC mt = true ->
                  shape (output_c_backprop bctx) =
                  hidden_state_shape (model_shapes fi)).
    { intros Ec.
      destruct (shape_eqb (shape (output_c_backprop bctx))
                          (hidden_state_shape (model_shapes fi))) eqn:Ecy.
      - now apply shape_eqb_eq.
      - apply shape_eqb_neq in Ecy.
        rewrite (backward_dcy_mismatch get_size mt bctx fi E Ec Ey Eh Ecy)
          in Hok.
        discriminate. }
    rewrite (backward_after_checks get_size mt bctx fi E Ey Eh Hcy) in Hok.
    inversion Hok; subst; cbn. split; reflexivity.
  - rewrite (backward_resolver_failed _ _ _ _ E) in Hok. discriminate.
  - rewrite (backward_resolver_aborted _ _ _ _ E) in Hok. discriminate.
Qed.

(* ================================================================== *)
(** * Cell-state shape check (C6) *)

(** C6 (as amended).  For every LSTM-model call, forward or backward, in
    which the shape of the cell-state tensor [input_c] differs from the
    shape of the hidden-state tensor [input_h], the call never returns:
    either it fails with [InvalidArgument], the message giving the two
    shapes, or it is aborted.  It fails with that [InvalidArgument]
    whenever the same inputs resolve with an [input_c] shaped like
    [input_h]. *)
Theorem cell_state_shape_mismatch_fails
    (get_size : workspace_get_size) (mt : MkldnnModelTypes)
    (is_training : bool) (bctx : BackpropContext) :
  HasInputC mt = true ->
  shape (input_c (forward_inputs bctx)) <>
  shape (input_h (forward_inputs bctx)) ->
  let st :=
    InvalidArgument
      [Text "input_h and input_c must have the same shape: ";
       ShapeDebugString (shape (input_h (forward_inputs bctx)));
       Text " ";
       ShapeDebugString (shape (input_c (forward_inputs bctx)))] in
  let forward :=
    MkldnnRNNForwardOp_Compute get_size mt is_training (forward_inputs bctx) in
  let backward := MkldnnRNNBackwardOp_Compute get_size mt bctx in
  is_ok forward = false /\ is_ok backward = false /\
  (forward = Failed st \/ exists f, forward = Aborted f) /\
  (backward = Failed st \/ exists f, backward = Aborted f) /\
  (forall fi,
     ExtractForwardInput
       (with_input_c (forward_inputs bctx) (input_h (forward_inputs bctx)))
       mt = Ok fi ->
     prints_shape st (shape (input_h (forward_inputs bctx))) /\
     prints_shape st (shape (input_c (forward_inputs bctx))) /\
     forward = Failed st /\ backward = Failed st).
Proof.
  intros Hc Hne st forward backward.
  assert (Hcases : ExtractForwardInput (forward_inputs bctx) mt = Failed st \/
                   exists f,
                     ExtractForwardInput (forward_inputs bctx) mt = Aborted f).
  { destruct (ExtractForwardInput (forward_inputs bctx) mt)
      as [fi|st'|f] eqn:E.
    - destruct (ExtractForwardInput_pointers _ _ _ E) as (_ & _ & _ & _ & H).
      exfalso. apply Hne. symmetry. auto.
    - left. f_equal. exact (ExtractForwardInput_failed_status _ mt _ E).
    - right. eauto. }
  assert (Hf : forward = Failed st \/ exists f, forward = Aborted f).
  { destruct Hcases as [H|[f H]].
    - left. now apply forward_resolver_failed.
    - right. exists f. now apply forward_resolver_aborted. }
  assert (Hb : backward = Failed st \/ exists f, backward = Aborted f).
  { destruct Hcases as [H|[f H]].
    - left. now apply backward_resolver_failed.
    - right. exists f. now apply backward_resolver_aborted. }
  split; [|split; [|split; [|split]]]; try assumption.
  - destruct Hf as [H|[f H]]; now rewrite H.
  - destruct Hb as [H|[f H]]; now rewrite H.
  - intros fi Hres.
    pose proof (ExtractForwardInput_cell_mismatch _ mt fi Hc Hne Hres) as H.
    repeat split.
    + simpl. auto.
    + simpl. auto 6.
    + now apply forward_resolver_failed.
    + now apply backward_resolver_failed.
Qed.

Lemma cell_state_shape_mismatch_fails_witness :
  MkldnnRNNBackwardOp_Compute (fixed_workspace 0)
    (model rnn_lstm rnn_unidirectional)
    (backprop_context (forward_context [3; 8; 6] [1; 8; 10] [1; 8; 11] [720])
                      [3; 8; 10] [1; 8; 10] [1; 8; 10] [0])
  = Failed (InvalidArgument
              [Text "input_h and input_c must have the same shape: ";
               ShapeDebugString [1; 8; 10]; Text " ";
               ShapeDebugString [1; 8; 11]]).
Proof.
  destruct (cell_state_shape_mismatch_fails (fixed_workspace 0)
              (model rnn_lstm rnn_unidirectional) true
              (backprop_context
                 (forward_context [3; 8; 6] [1; 8; 10] [1; 8; 11] [720])
                 [3; 8; 10] [1; 8; 10] [1; 8; 10] [0])
              eq_refl ltac:(discriminate)) as (_ & _ & _ & _ & H).
  destruct (H _ eq_refl) as (_ & _ & _ & Hb).
  exact Hb.
Defined.

(** C6, counterexample.  LSTM, one direction, [input_c] and [input_h] of
    different shapes, and yet no [InvalidArgument]: with an empty [input] of
    shape [[2147483648, 0]], [input_h] [[8,10]] and [input_c] [[8,11]] the
    batch size narrows to -2147483648, and the forward and the backward
    call end at the construction of the input shape from it, which comes
    before the check. *)
Lemma cell_state_shape_mismatch_aborts :
  let ctx := forward_context [2147483648; 0] [8; 10] [8; 11] [720] in
  shape (input_c ctx) <> shape (input_h ctx) /\
  MkldnnRNNForwardOp_Compute (fixed_workspace 0)
    (model rnn_lstm rnn_unidirectional) true ctx
  = Aborted InvalidShapeSize /\
  MkldnnRNNBackwardOp_Compute (fixed_workspace 0)
    (model rnn_lstm rnn_unidirectional)
    (backprop_context ctx [8; 10] [8; 10] [8; 10] [0])
  = Aborted InvalidShapeSize.
Proof. cbv zeta. split; [discriminate|]. split; reflexivity. Qed.

(* ================================================================== *)
(** * Gradient checks of the backward kernel (C4, C10) *)

(** C10.  For every backward call on a model without a cell state, once the
    shapes are resolved the pointer [Tcx] is still null, and if the shape of
    [output_backprop] differs from the derived output shape, the failure
    branch, which builds its message from [Tcx->shape()], dereferences that
    null pointer: the call ends there instead of returning a status. *)
Theorem backward_output_gradient_branch_reads_null
    (get_size : workspace_get_size) (mt : MkldnnModelTypes)
    (bctx : BackpropContext) (fi : ForwardInput) :
  HasInputC mt = false ->
  ExtractForwardInput (forward_inputs bctx) mt = Ok fi ->
  output_shape (model_shapes fi) <> shape (output_backprop bctx) ->
  Tcx fi = None /\
  deref (Tcx fi) = Aborted NullPointerDereference /\
  MkldnnRNNBackwardOp_Compute get_size mt bctx =
  Aborted NullPointerDereference.
Proof.
  intros Hc Hres Hne.
  destruct (ExtractForwardInput_pointers _ _ _ Hres) as (_ & _ & _ & Hp & _).
  rewrite Hc in Hp. rewrite Hp. repeat split.
  now apply (backward_dy_mismatch_no_cell get_size mt bctx fi).
Qed.

Lemma backward_output_gradient_branch_reads_null_witness :
  MkldnnRNNBackwardOp_Compute (fixed_workspace 0)
    (model rnn_gru rnn_unidirectional)
    (backprop_context (forward_context [3; 8; 6] [1; 8; 10] [] [540])
                      [3; 8; 11] [1; 8; 10] [] [0])
  = Aborted NullPointerDereference.
Proof.
  refine (proj2 (proj2 (backward_output_gradient_branch_reads_null
            (fixed_workspace 0) (model rnn_gru rnn_unidirectional)
            (backprop_context (forward_context [3; 8; 6] [1; 8; 10] [] [540])
                              [3; 8; 11] [1; 8; 10] [] [0])
            _ eq_refl eq_refl _))).
  simpl. discriminate.
Defined.

(** C4, at the failing input.  LSTM, one direction, [input] of shape
    [[3,8,6]], [input_h] and [input_c] of shape [[1,8,10]]: the derived
    output shape is [[3,8,10]].  With an [output_backprop] of shape
    [[3,8,11]] the call fails with [InvalidArgument], but its message is
    the one of the h/c check: it prints the (equal) shapes of [input_h] and
    [input_c] and neither of the two conflicting shapes. *)
Theorem backward_output_gradient_message :
  forall get_size : workspace_get_size,
  let bctx :=
    backprop_context (forward_context [3; 8; 6] [1; 8; 10] [1; 8; 10] [720])
                     [3; 8; 11] [1; 8; 10] [1; 8; 10] [0] in
  let st :=
    InvalidArgument
      [Text "h and c must have the same shape: ";
       ShapeDebugString [1; 8; 10]; Text " "; ShapeDebugString [1; 8; 10]] in
  (exists fi,
     ExtractForwardInput (forward_inputs bctx)
                         (model rnn_lstm rnn_unidirectional) = Ok fi /\
     output_shape (model_shapes fi) = [3; 8; 10]) /\
  MkldnnRNNBackwardOp_Compute get_size (model rnn_lstm rnn_unidirectional) bctx
    = Failed st /\
  ~ prints_shape st [3; 8; 10] /\ ~ prints_shape st [3; 8; 11].
Proof.
  intros get_size bctx st. split; [|split; [|split]].
  - eexists. split; reflexivity.
  - reflexivity.
  - simpl. intros [H|[H|[H|[H|[]]]]]; discriminate.
  - simpl. intros [H|[H|[H|[H|[]]]]]; discriminate.
Qed.

(** The two later checks do what C4 asks: a rejected [output_h_backprop]
    or [output_c_backprop] fails with [InvalidArgument], the message naming
    the gradient ("dhy", "dcy") and printing its shape and the derived
    hidden-state shape. *)
Lemma backward_state_gradient_messages
    (get_size : workspace_get_size) (mt : MkldnnModelTypes)
    (bctx : BackpropContext) (fi : ForwardInput) :
  ExtractForwardInput (forward_inputs bctx) mt = Ok fi ->
  output_shape (model_shapes fi) = shape (output_backprop bctx) ->
  (shape (output_h_backprop bctx) <> hidden_state_shape (model_shapes fi) ->
   exists st,
     MkldnnRNNBackwardOp_Compute get_size mt bctx = Failed st /\
     prints_shape st (shape (output_h_backprop bctx)) /\
     prints_shape st (hidden_state_shape (model_shapes fi))) /\
  (HasInputC mt = true ->
   shape (output_h_backprop bctx) = hidden_state_shape (model_shapes fi) ->
   shape (output_c_backprop bctx) <> hidden_state_shape (model_shapes fi) ->
   exists st,
     MkldnnRNNBackwardOp_Compute get_size mt bctx = Failed st /\
     prints_shape st (shape (output_c_backprop bctx)) /\
     prints_shape st (hidden_state_shape (model_shapes fi))).
Proof.
  intros Hres Hy. split.
  - intros Hne. eexists. split.
    + now apply (backward_dhy_mismatch get_size mt bctx fi).
    + simpl. auto 6.
  - intros Hc Hh Hne. eexists. split.
    + now apply (backward_dcy_mismatch get_size mt bctx fi).
    + simpl. auto 6.
Qed.

(* ================================================================== *)
(** * Reserve space (C5) *)




(* ================================================================== *)
(** * Shapes of the state outputs (C3) *)

Lemma MkldnnRNN_ShapeFn_state_outputs
    (Multiply : Multiply_fn) (attrs : RNNAttrs)
    (input_s input_h_s : ShapeHandle) (inf : InferredShapes) :
  MkldnnRNN_ShapeFn Multiply attrs input_s input_h_s = Ok inf ->
  inferred_output_h inf = input_h_s /\
  inferred_output_c inf =
    (if (attr_rnn_mode attrs =? "lstm")%string then input_h_s
     else MakeShape []).
Proof.
  unfold MkldnnRNN_ShapeFn.
  match goal with
  | |- bind ?e _ = _ -> _ => destruct e; cbn [bind]; try discriminate
  end.
  intros H. inversion H; subst; cbn. split; reflexivity.
Qed.

(** The kernel and the shape function agree on which models have a cell
    state: the kernel built from the attributes has input-c exactly when
    the [rnn_mode] attribute is "lstm". *)
Lemma HasInputC_attr (attrs : RNNAttrs) (mt : MkldnnModelTypes) :
  MkldnnRNNKernelCommon attrs = Ok mt ->
  HasInputC mt = (attr_rnn_mode attrs =? "lstm")%string.
Proof.
  unfold MkldnnRNNKernelCommon.
  destruct (GetAttr_int32 "seed" _); cbn [bind]; try discriminate.
  destruct (GetAttr_int32 "seed2" _); cbn [bind]; try discriminate.
  unfold ParseRNNMode.
  destruct (String.eqb_spec (attr_rnn_mode attrs) "rnn_relu") as [E|_];
    [try rewrite E|
     destruct (String.eqb_spec (attr_rnn_mode attrs) "rnn_tanh") as [E|_];
     [try rewrite E|
      destruct (String.eqb_spec (attr_rnn_mode attrs) "lstm") as [E|_];
      [try rewrite E|
       destruct (String.eqb_spec (attr_rnn_mode attrs) "gru") as [E|_];
       [try rewrite E|]]]];
    cbn [bind]; try discriminate;
    destruct (ParseRNNInputMode (attr_input_mode attrs));
    cbn [bind]; try discriminate;
    destruct (ParseRNNDirectionMode (attr_direction attrs));
    cbn [bind]; try discriminate;
    intros H; inversion H; reflexivity.
Qed.

(** The hidden-state shape the resolver derives is the shape of [input_h]
    when [input_h] has the documented layout. *)
Lemma hidden_state_shape_documented
    (ctx : OpKernelContext) (mt : MkldnnModelTypes) (fi : ForwardInput) :
  ExtractForwardInput ctx mt = Ok fi ->
  hidden_as_documented (dir_count (model_shapes fi))
                       (batch_size (model_shapes fi)) (shape (input_h ctx)) ->
  hidden_state_shape (model_shapes fi) = shape (input_h ctx).
Proof.
  intros Hres [(n & Hn & Hs) | (L & n & HL & HdL & Hn & Hs)].
  - destruct (ExtractForwardInput_rank2_hidden ctx mt fi _ _ Hs Hres)
      as (_ & Hu & Hh).
    rewrite Hh, Hu, Hs, (to_int_fits n Hn). reflexivity.
  - destruct (ExtractForwardInput_rank3_hidden ctx mt fi _ _ _ Hs Hres)
      as (Hl & Hu & Hh).
    pose proof (ExtractForwardInput_dir_count ctx mt fi Hres) as Hd.
    assert (Hdir : dir_count (model_shapes fi) = 1 \/
                   dir_count (model_shapes fi) = 2)
      by (rewrite Hd; destruct (direction_eqb _ _); auto).
    assert (HLfit : fits_int L)
      by (unfold fits_int, INT_MIN, INT_MAX, half in *; lia).
    assert (HdLfit : fits_int (dir_count (model_shapes fi) * L))
      by (unfold fits_int, INT_MIN, INT_MAX, half in *; lia).
    rewrite Z.mul_comm, Z.quot_mul in Hl by lia.
    rewrite (to_int_fits L HLfit) in Hl.
    rewrite Hh, Hl, Hu, Hs, (to_int_fits n Hn). unfold int_mul.
    rewrite (to_int_fits _ HdLfit). reflexivity.
Qed.

(** The kernel allocates [output_h] with the derived hidden-state shape, and
    [output_c] with it for LSTM and with the empty shape [{}] otherwise.  So
    for every forward call that returns, [output_c] of a non-LSTM model has
    the empty shape, and when [input_h] has the documented layout for the
    batch size and direction count derived from [input], [output_h] has the
    shape of [input_h] and so has [output_c] of an LSTM model.  The
    registered shape function declares the shape of [input_h] for
    [output_h], and for [output_c] when [rnn_mode] is "lstm", the empty
    shape otherwise, whatever the input shapes. *)
Lemma forward_state_output_shapes
    (get_size : workspace_get_size) (mt : MkldnnModelTypes)
    (is_training : bool) (ctx : OpKernelContext)
    (fi : ForwardInput) (outs : ForwardOutputs) :
  ExtractForwardInput ctx mt = Ok fi ->
  MkldnnRNNForwardOp_Compute get_size mt is_training ctx = Ok outs ->
  shape (output_h outs) = hidden_state_shape (model_shapes fi) /\
  shape (output_c outs) =
    (if HasInputC mt then hidden_state_shape (model_shapes fi) else []) /\
  (hidden_as_documented (dir_count (model_shapes fi))
                        (batch_size (model_shapes fi))
                        (shape (input_h ctx)) ->
   shape (output_h outs) = shape (input_h ctx) /\
   shape (output_c outs) =
     (if HasInputC mt then shape (input_h ctx) else [])) /\
  (forall Multiply attrs input_s input_h_s inf,
     MkldnnRNN_ShapeFn Multiply attrs input_s input_h_s = Ok inf ->
     inferred_output_h inf = input_h_s /\
     inferred_output_c inf =
       (if (attr_rnn_mode attrs =? "lstm")%string then input_h_s
        else MakeShape [])).
Proof.
  intros Hres Hf.
  destruct (forward_ok_inv get_size mt is_training ctx outs Hf)
    as (fi' & Hres' & _ & Hh & Hc & _).
  assert (fi' = fi) by congruence. subst fi'.
  split; [exact Hh|]. split; [exact Hc|]. split.
  - intros Hdoc. rewrite Hh, Hc.
    rewrite (hidden_state_shape_documented ctx mt fi Hres Hdoc).
    split; reflexivity.
  - intros Multiply attrs input_s input_h_s inf.
    apply MkldnnRNN_ShapeFn_state_outputs.
Qed.

(** C3, at the failing input.  No check of the kernel relates [input_h] to
    the shapes derived from [input].  GRU, one direction, [input] of shape
    [[3,8,6]] and [input_h] of shape [[2,7,10]]: the forward call returns
    with [output_h] of shape [[2,8,10]], which is not the shape of
    [input_h], while the registered shape function declares the shape of
    [input_h], [[2,7,10]], for [output_h].  With [input_h] of shape
    [[2,8,10]], the documented layout for this [input], the two agree. *)
Theorem forward_output_h_differs_from_input_h :
  let attrs := {| attr_rnn_mode := "gru"; attr_input_mode := "linear_input";
                  attr_direction := "unidirectional";
                  attr_dropout := 0; attr_seed := 0; attr_seed2 := 0 |} in
  let ctx := forward_context [3; 8; 6] [2; 7; 10] [] [1200] in
  let documented := forward_context [3; 8; 6] [2; 8; 10] [] [1200] in
  exists mt,
    MkldnnRNNKernelCommon attrs = Ok mt /\
    (exists outs inf,
       MkldnnRNNForwardOp_Compute (fixed_workspace 4000) mt false ctx
         = Ok outs /\
       MkldnnRNN_ShapeFn product_Multiply attrs
         (known_shape (shape (input ctx))) (known_shape (shape (input_h ctx)))
         = Ok inf /\
       shape (output_h outs) = [2; 8; 10] /\
       shape (output_h outs) <> shape (input_h ctx) /\
       inferred_output_h inf = known_shape [2; 7; 10] /\
       inferred_output_h inf <> known_shape (shape (output_h outs))) /\
    (exists outs inf,
       MkldnnRNNForwardOp_Compute (fixed_workspace 4000) mt false documented
         = Ok outs /\
       MkldnnRNN_ShapeFn product_Multiply attrs
         (known_shape (shape (input documented)))
         (known_shape (shape (input_h documented))) = Ok inf /\
       shape (output_h outs) = shape (input_h documented) /\
       inferred_output_h inf = known_shape (shape (output_h outs))).
Proof.
  cbv zeta. eexists. split; [reflexivity|]. split.
  - eexists. eexists. split; [reflexivity|]. split; [reflexivity|].
    cbn. repeat split; discriminate.
  - eexists. eexists. split; [reflexivity|]. split; [reflexivity|].
    cbn. repeat split.
Qed.

(* ================================================================== *)
(** * Derived shapes (C7, C2) *)

(** C7 (as amended).  A resolver call that returns has derived: for a
    rank-2 [input] whose dimensions fit an [int], [seq_length = 1],
    [batch_size = dim0], [input_size = dim1] and input shape
    [[1, dim0, dim1]]; for a rank-3 [input] whose dimensions fit an [int],
    the three of them from the three dimensions; the output shape is
    [[batch_size, dir_count*num_units]], respectively
    [[seq_length, batch_size, dir_count*num_units]], provided the product
    fits an [int].  Rank-2 input [[8,6]] with rank-2 hidden [[8,10]], LSTM,
    one direction: the call returns, with [seq_length = 1],
    [num_layers = 1] and output shape [[8,10]]. *)
Theorem resolver_derives_shapes
    (ctx : OpKernelContext) (mt : MkldnnModelTypes) (fi : ForwardInput) :
  ExtractForwardInput ctx mt = Ok fi ->
  (forall d0 d1,
     shape (input ctx) = [d0; d1] -> fits_int d0 -> fits_int d1 ->
     seq_length (model_shapes fi) = 1 /\
     batch_size (model_shapes fi) = d0 /\
     input_size (model_shapes fi) = d1 /\
     input_shape (model_shapes fi) = [1; d0; d1] /\
     (fits_int (dir_count (model_shapes fi) * num_units (model_shapes fi)) ->
      output_shape (model_shapes fi) =
      [batch_size (model_shapes fi);
       dir_count (model_shapes fi) * num_units (model_shapes fi)])) /\
  (forall d0 d1 d2,
     shape (input ctx) = [d0; d1; d2] ->
     fits_int d0 -> fits_int d1 -> fits_int d2 ->
     seq_length (model_shapes fi) = d0 /\
     batch_size (model_shapes fi) = d1 /\
     input_size (model_shapes fi) = d2 /\
     input_shape (model_shapes fi) = [d0; d1; d2] /\
     (fits_int (dir_count (model_shapes fi) * num_units (model_shapes fi)) ->
      output_shape (model_shapes fi) =
      [seq_length (model_shapes fi); batch_size (model_shapes fi);
       dir_count (model_shapes fi) * num_units (model_shapes fi)])) /\
  (exists fi,
     ExtractForwardInput (forward_context [8; 6] [8; 10] [8; 10] [720])
                         (model rnn_lstm rnn_unidirectional) = Ok fi /\
     seq_length (model_shapes fi) = 1 /\
     num_layers (model_shapes fi) = 1 /\
     output_shape (model_shapes fi) = [8; 10]).
Proof.
  intros Hres. split; [|split].
  - intros d0 d1 Hs H0 H1.
    destruct (ExtractForwardInput_rank2_input ctx mt fi d0 d1 Hs Hres)
      as (Hseq & Hb & Hi & Hin & Hout).
    rewrite (to_int_fits d0 H0) in Hb, Hin.
    rewrite (to_int_fits d1 H1) in Hi, Hin.
    repeat split; try assumption.
    intros Hfit. rewrite Hout. unfold int_mul. now rewrite to_int_fits.
  - intros d0 d1 d2 Hs H0 H1 H2.
    destruct (ExtractForwardInput_rank3_input ctx mt fi d0 d1 d2 Hs Hres)
      as (Hseq & Hb & Hi & Hin & Hout).
    rewrite (to_int_fits d0 H0) in Hseq.
    rewrite (to_int_fits d1 H1) in Hb.
    rewrite (to_int_fits d2 H2) in Hi.
    repeat split; try assumption.
    intros Hfit. rewrite Hout. unfold int_mul. now rewrite to_int_fits.
  - eexists. split; [reflexivity|]. cbn. repeat split.
Qed.

Lemma resolver_derives_shapes_witness :
  exists fi,
    ExtractForwardInput (forward_context [5; 8; 6] [4; 8; 10] [] [2400])
                        (model rnn_gru rnn_bidirectional) = Ok fi /\
    seq_length (model_shapes fi) = 5 /\
    batch_size (model_shapes fi) = 8 /\
    input_size (model_shapes fi) = 6 /\
    output_shape (model_shapes fi) = [5; 8; 20].
Proof.
  eexists. split; [reflexivity|].
  destruct (resolver_derives_shapes
              (forward_context [5; 8; 6] [4; 8; 10] [] [2400])
              (model rnn_gru rnn_bidirectional) _ eq_refl) as (_ & H3 & _).
  destruct (H3 5 8 6 eq_refl) as (Hs & Hb & Hi & _ & Hout);
    try (split; discriminate).
  split; [exact Hs|]. split; [exact Hb|]. split; [exact Hi|].
  apply Hout. vm_compute. split; discriminate.
Defined.

(** C7, counterexample: a rank-2 [input] of shape [[4294967304, 0]] (an
    empty tensor), GRU, one direction, hidden [[8,10]]: [batch_size] is an
    [int], and the resolver derives 8 for it, not dimension 0. *)
Lemma resolver_truncates_batch_size :
  exists fi,
    ExtractForwardInput (forward_context [4294967304; 0] [8; 10] [] [360])
                        (model rnn_gru rnn_unidirectional) = Ok fi /\
    batch_size (model_shapes fi) = 8 /\
    batch_size (model_shapes fi) <> 4294967304.
Proof.
  eexists. split; [reflexivity|]. cbn. split; [reflexivity|discriminate].
Qed.

(** The resolver has no divisibility check.  A call that returns on a
    rank-3 [input_h] [[h0, h1, h2]] with [0 <= h0 <= INT_MAX] and [h2]
    within [int] has derived, whether or not [h0] is a multiple of
    [dir_count], [num_layers = h0 / dir_count] rounded down,
    [num_units = h2] and hidden-state shape
    [[dir_count*num_layers, batch_size, num_units]], whose leading dimension
    is below [h0] when the division leaves a remainder. *)
Lemma ExtractForwardInput_num_layers_rounded
    (ctx : OpKernelContext) (mt : MkldnnModelTypes) (fi : ForwardInput)
    (h0 h1 h2 : Z) :
  ExtractForwardInput ctx mt = Ok fi ->
  shape (input_h ctx) = [h0; h1; h2] ->
  0 <= h0 <= INT_MAX -> fits_int h2 ->
  num_layers (model_shapes fi) = h0 / dir_count (model_shapes fi) /\
  num_units (model_shapes fi) = h2 /\
  hidden_state_shape (model_shapes fi) =
    [dir_count (model_shapes fi) * num_layers (model_shapes fi);
     batch_size (model_shapes fi); num_units (model_shapes fi)] /\
  (h0 mod dir_count (model_shapes fi) <> 0 ->
   dir_count (model_shapes fi) * num_layers (model_shapes fi) < h0).
Proof.
  intros Hres Hs H0 H2.
  destruct (ExtractForwardInput_rank3_hidden ctx mt fi h0 h1 h2 Hs Hres)
    as (Hl & Hu & Hh).
  pose proof (ExtractForwardInput_dir_count ctx mt fi Hres) as Hd.
  assert (Hdir : dir_count (model_shapes fi) = 1 \/
                 dir_count (model_shapes fi) = 2)
    by (rewrite Hd; destruct (direction_eqb _ _); auto).
  set (d := dir_count (model_shapes fi)) in *.
  rewrite Z.quot_div_nonneg in Hl by lia.
  assert (Hq : 0 <= h0 / d <= h0).
  { split; [apply Z.div_pos; lia|].
    apply Z.div_le_upper_bound; [lia|]. nia. }
  assert (Hm : d * (h0 / d) <= h0) by (apply Z.mul_div_le; lia).
  assert (Hqfit : fits_int (h0 / d))
    by (unfold fits_int, INT_MIN, INT_MAX, half in *; lia).
  rewrite (to_int_fits _ Hqfit) in Hl.
  rewrite (to_int_fits _ H2) in Hu.
  split; [assumption|]. split; [assumption|]. split.
  - rewrite Hh. unfold int_mul. rewrite to_int_fits; [reflexivity|].
    rewrite Hl. unfold fits_int, INT_MIN, INT_MAX, half in *. nia.
  - intros Hrem. rewrite Hl.
    pose proof (Z.div_mod h0 d ltac:(lia)) as Hdm.
    pose proof (Z.mod_pos_bound h0 d ltac:(lia)). lia.
Qed.

(** C2, at the failing input.  Bidirectional GRU ([dir_count = 2]),
    [input] of shape [[3,8,6]], hidden state of shape [[5,8,10]], whose
    leading dimension is not a multiple of 2.  The resolver returns, with
    [num_layers = 2] and hidden-state shape [[4,8,10]]; no status and no
    abort stops the forward kernel, which returns, in training and in
    inference, with [output_h] of shape [[4,8,10]], while the registered
    shape function declares [[5,8,10]] for it. *)
Theorem resolver_accepts_odd_leading_dim :
  let attrs := {| attr_rnn_mode := "gru"; attr_input_mode := "linear_input";
                  attr_direction := "bidirectional";
                  attr_dropout := 0; attr_seed := 0; attr_seed2 := 0 |} in
  let ctx := forward_context [3; 8; 6] [5; 8; 10] [] [2400] in
  5 mod 2 <> 0 /\
  exists mt,
    MkldnnRNNKernelCommon attrs = Ok mt /\
    (exists fi,
       ExtractForwardInput ctx mt = Ok fi /\
       dir_count (model_shapes fi) = 2 /\
       num_layers (model_shapes fi) = 2 /\
       hidden_state_shape (model_shapes fi) = [4; 8; 10]) /\
    (forall is_training, exists outs inf,
       MkldnnRNNForwardOp_Compute (fixed_workspace 4000) mt is_training ctx
         = Ok outs /\
       MkldnnRNN_ShapeFn product_Multiply attrs
         (known_shape (shape (input ctx))) (known_shape (shape (input_h ctx)))
         = Ok inf /\
       shape (output_h outs) = [4; 8; 10] /\
       inferred_output_h inf = known_shape [5; 8; 10] /\
       inferred_output_h inf <> known_shape (shape (output_h outs))).
Proof.
  cbv zeta. split; [discriminate|].
  eexists. split; [reflexivity|]. split.
  - eexists. split; [reflexivity|]. cbn. repeat split.
  - intros [|]; eexists; eexists;
      (split; [reflexivity|]); (split; [reflexivity|]);
      cbn; repeat split; discriminate.
Qed.

(* ================================================================== *)
(** * Scalar checks of the parameter-size kernel (C9) *)

(** The kernel has no failing path: it never ends with a status. *)
Lemma MkldnnRNNParamsSizeOp_never_fails
    (mt : MkldnnModelTypes) (nl nu isz : Int32Tensor) (st : Status) :
  MkldnnRNNParamsSizeOp_Compute mt nl nu isz <> Failed st.
Proof.
  unfold MkldnnRNNParamsSizeOp_Compute, scalar_int.
  repeat match goal with
    | |- context [if ?b then _ else _] => destruct b; cbn [bind]
    | |- context [match i32_flat ?t with _ => _ end] =>
        destruct (i32_flat t); cbn [bind]
    end; discriminate.
Qed.

(** C9, at the failing input.  LSTM, one direction; [num_layers] is a
    vector of shape [[1]] holding 2, [num_units] and [input_size] are the
    scalars 4 and 3.  The kernel logs "num_layers is not a scalar" and goes
    on: it returns the size 304 computed from the tensor's data. *)
Theorem params_size_accepts_non_scalar :
  let num_layers_t := {| i32_shape := [1]; i32_flat := [2] |} in
  IsScalar (i32_shape num_layers_t) = false /\
  MkldnnRNNParamsSizeOp_Compute (model rnn_lstm rnn_unidirectional)
    num_layers_t (scalar_i32 4) (scalar_i32 3)
  = Ok ({| i32_shape := [1]; i32_flat := [304] |},
        ["num_layers is not a scalar"%string]) /\
  MkldnnRNNParamsSizeOp_Compute (model rnn_lstm rnn_unidirectional)
    (scalar_i32 2) (scalar_i32 4) (scalar_i32 3)
  = Ok ({| i32_shape := [1]; i32_flat := [304] |}, []).
Proof. repeat split. Qed.

(* ================================================================== *)
(** * Attribute parsing and kernel construction *)

(** Deciding the comparisons of a parser against its literals. *)
Ltac parser_cases str :=
  repeat match goal with
    | |- context [(str =? ?lit)%string] =>
        destruct (String.eqb_spec str lit)
    end.

Lemma ParseRNNMode_ok (str : string) :
  (exists m, ParseRNNMode str = Ok m) <-> In str (attr_values kRNNModeAttrs).
Proof.
  unfold ParseRNNMode. parser_cases str; simpl; split; intros H;
    first [ now eauto
          | destruct H; discriminate
          | intuition congruence ].
Qed.

Lemma ParseRNNInputMode_ok (str : string) :
  (exists m, ParseRNNInputMode str = Ok m) <->
  In str (attr_values kRNNInputModeAttrs).
Proof.
  unfold ParseRNNInputMode. parser_cases str; simpl; split; intros H;
    first [ now eauto
          | destruct H; discriminate
          | intuition congruence ].
Qed.

Lemma ParseRNNDirectionMode_ok (str : string) :
  (exists m, ParseRNNDirectionMode str = Ok m) <->
  In str (attr_values kRNNDirectionAttrs).
Proof.
  unfold ParseRNNDirectionMode. parser_cases str; simpl; split; intros H;
    first [ now eauto
          | destruct H; discriminate
          | intuition congruence ].
Qed.

(** X1.  [ParseRNNInputMode] selects the skip-input mode for the string
    "skip_input" and for no other: "auto_select", like "linear_input", is
    parsed to the linear-input mode. *)
Theorem ParseRNNInputMode_skip_only (str : string) :
  (ParseRNNInputMode str = Ok rnn_skip_input <-> str = "skip_input"%string) /\
  (ParseRNNInputMode str = Ok rnn_linear_input <->
   str = "linear_input"%string \/ str = "auto_select"%string).
Proof.
  unfold ParseRNNInputMode. parser_cases str; subst; simpl; split; split;
    intros H; try reflexivity; try discriminate; auto;
    try (destruct H; congruence); congruence.
Qed.

(** The three parsers in sequence, as the constructor runs them: they
    succeed exactly when each categorical attribute has one of the values
    the op registration lists for it; otherwise the first that fails gives
    [InvalidArgument] whose message ends with the value that is not listed;
    they never abort. *)
Lemma parsers_accept_registered (attrs : RNNAttrs) :
  let parsed :=
    (m <- ParseRNNMode (attr_rnn_mode attrs) ;;
     i <- ParseRNNInputMode (attr_input_mode attrs) ;;
     d <- ParseRNNDirectionMode (attr_direction attrs) ;;
     Ok {| rnn_mode := m; rnn_input_mode := i; rnn_direction_mode := d |}) in
  ((exists mt, parsed = Ok mt) <->
   In (attr_rnn_mode attrs) (attr_values kRNNModeAttrs) /\
   In (attr_input_mode attrs) (attr_values kRNNInputModeAttrs) /\
   In (attr_direction attrs) (attr_values kRNNDirectionAttrs)) /\
  (forall st, parsed = Failed st ->
     exists label v,
       st = InvalidArgument [Text label; Text v] /\
       ((v = attr_rnn_mode attrs /\
         ~ In v (attr_values kRNNModeAttrs)) \/
        (v = attr_input_mode attrs /\
         ~ In v (attr_values kRNNInputModeAttrs)) \/
        (v = attr_direction attrs /\
         ~ In v (attr_values kRNNDirectionAttrs)))) /\
  (forall f, parsed <> Aborted f).
Proof.
  pose proof (ParseRNNMode_ok (attr_rnn_mode attrs)) as Hm.
  pose proof (ParseRNNInputMode_ok (attr_input_mode attrs)) as Hi.
  pose proof (ParseRNNDirectionMode_ok (attr_direction attrs)) as Hd.
  cbv zeta.
  destruct (ParseRNNMode (attr_rnn_mode attrs)) as [m|sm|fm] eqn:Em;
    cbn [bind].
  2:{ split; [|split].
      - split; [intros [mt H]; discriminate|].
        intros (H & _ & _). apply Hm in H. destruct H; discriminate.
      - intros st H. inversion H; subst st. revert Em. unfold ParseRNNMode.
        parser_cases (attr_rnn_mode attrs); try discriminate.
        intros Em. inversion Em. do 2 eexists. split; [reflexivity|].
        left. split; [reflexivity|]. simpl. intros H'. intuition congruence.
      - discriminate. }
  2:{ exfalso. revert Em. unfold ParseRNNMode.
      parser_cases (attr_rnn_mode attrs); discriminate. }
  destruct (ParseRNNInputMode (attr_input_mode attrs)) as [i|si|fi] eqn:Ei;
    cbn [bind].
  2:{ split; [|split].
      - split; [intros [mt H]; discriminate|].
        intros (_ & H & _). apply Hi in H. destruct H; discriminate.
      - intros st H. inversion H; subst st. revert Ei.
        unfold ParseRNNInputMode.
        parser_cases (attr_input_mode attrs); try discriminate.
        intros Ei. inversion Ei. do 2 eexists. split; [reflexivity|].
        right. left. split; [reflexivity|]. simpl. intros H'.
        intuition congruence.
      - discriminate. }
  2:{ exfalso. revert Ei. unfold ParseRNNInputMode.
      parser_cases (attr_input_mode attrs); discriminate. }
  destruct (ParseRNNDirectionMode (attr_direction attrs)) as [d|sd|fd] eqn:Ed;
    cbn [bind].
  - split; [|split]; try discriminate.
    split; [|eauto]. intros _. repeat split.
    + apply Hm. eauto.
    + apply Hi. eauto.
    + apply Hd. eauto.
  - split; [|split].
    + split; [intros [mt H]; discriminate|].
      intros (_ & _ & H). apply Hd in H. destruct H; discriminate.
    + intros st H. inversion H; subst st. revert Ed.
      unfold ParseRNNDirectionMode.
      parser_cases (attr_direction attrs); try discriminate.
      intros Ed. inversion Ed. do 2 eexists. split; [reflexivity|].
      right. right. split; [reflexivity|]. simpl. intros H'.
      intuition congruence.
    + discriminate.
  - exfalso. revert Ed. unfold ParseRNNDirectionMode.
    parser_cases (attr_direction attrs); discriminate.
Qed.

(** Reading an [int] attribute into an [int] member succeeds, with the
    value, exactly when the value is a 32-bit one; otherwise it fails. *)
Lemma GetAttr_int32_cases (attr_name : string) (v : Z) :
  (fits_int v /\ GetAttr_int32 attr_name v = Ok v) \/
  (~ fits_int v /\
   GetAttr_int32 attr_name v =
   Failed (InvalidArgument
             [Text "Attr "; Text attr_name; Text " has value ";
              Int64Value v; Text " out of range for an int32"])).
Proof.
  unfold GetAttr_int32, fits_int.
  destruct (Z.leb_spec INT_MIN v); destruct (Z.leb_spec v INT_MAX);
    cbn [andb];
    [left|right|right|right]; (split; [lia|reflexivity]).
Qed.

(** X2.  The constructor of the common kernel base succeeds exactly when the
    [seed] and [seed2] attributes are 32-bit values and each of the three
    categorical attributes has one of the values the op registration lists
    for it.  When it fails, either one of the two seeds is not a 32-bit
    value and the status is the one of the attribute read, or the status is
    [InvalidArgument] whose message ends with a categorical attribute value
    that is not listed.  It never aborts. *)
Theorem MkldnnRNNKernelCommon_accepts_registered (attrs : RNNAttrs) :
  ((exists mt, MkldnnRNNKernelCommon attrs = Ok mt) <->
   fits_int (attr_seed attrs) /\ fits_int (attr_seed2 attrs) /\
   In (attr_rnn_mode attrs) (attr_values kRNNModeAttrs) /\
   In (attr_input_mode attrs) (attr_values kRNNInputModeAttrs) /\
   In (attr_direction attrs) (attr_values kRNNDirectionAttrs)) /\
  (forall st, MkldnnRNNKernelCommon attrs = Failed st ->
     (exists attr_name v,
        ((attr_name = "seed"%string /\ v = attr_seed attrs) \/
         (attr_name = "seed2"%string /\ v = attr_seed2 attrs)) /\
        ~ fits_int v /\
        GetAttr_int32 attr_name v = Failed st) \/
     (fits_int (attr_seed attrs) /\ fits_int (attr_seed2 attrs) /\
      exists label v,
        st = InvalidArgument [Text label; Text v] /\
        ((v = attr_rnn_mode attrs /\
          ~ In v (attr_values kRNNModeAttrs)) \/
         (v = attr_input_mode attrs /\
          ~ In v (attr_values kRNNInputModeAttrs)) \/
         (v = attr_direction attrs /\
          ~ In v (attr_values kRNNDirectionAttrs))))) /\
  (forall f, MkldnnRNNKernelCommon attrs <> Aborted f).
Proof.
  destruct (parsers_accept_registered attrs) as (Hok & Hfail & Habort).
  cbv zeta in Hok, Hfail, Habort.
  unfold MkldnnRNNKernelCommon.
  destruct (GetAttr_int32_cases "seed" (attr_seed attrs)) as [[H1 E1]|[H1 E1]];
    rewrite E1; cbn [bind].
  2:{ split; [|split]; try discriminate.
      - split; [intros [mt H]; discriminate|]. intros (H & _). contradiction.
      - intros st H. left. exists "seed"%string, (attr_seed attrs).
        split; [left; split; reflexivity|]. split; [assumption|].
        rewrite E1. inversion H. reflexivity. }
  destruct (GetAttr_int32_cases "seed2" (attr_seed2 attrs))
    as [[H2 E2]|[H2 E2]]; rewrite E2; cbn [bind].
  2:{ split; [|split]; try discriminate.
      - split; [intros [mt H]; discriminate|].
        intros (_ & H & _). contradiction.
      - intros st H. left. exists "seed2"%string, (attr_seed2 attrs).
        split; [right; split; reflexivity|]. split; [assumption|].
        rewrite E2. inversion H. reflexivity. }
  split; [|split].
  - rewrite Hok. tauto.
  - intros st H. right. split; [assumption|]. split; [assumption|].
    exact (Hfail st H).
  - exact Habort.
Qed.

(** A constructed kernel has one of the four recurrence kinds, and the
    direction count of its model follows the [direction] attribute. *)
Lemma MkldnnRNNKernelCommon_model (attrs : RNNAttrs) (mt : MkldnnModelTypes) :
  MkldnnRNNKernelCommon attrs = Ok mt ->
  (exists g, Spec.gate_multiplier (rnn_mode mt) = Some g) /\
  dir_count_of mt =
    (if (attr_direction attrs =? "bidirectional")%string then 2 else 1).
Proof.
  unfold MkldnnRNNKernelCommon.
  destruct (GetAttr_int32 "seed" _); cbn [bind]; try discriminate.
  destruct (GetAttr_int32 "seed2" _); cbn [bind]; try discriminate.
  unfold ParseRNNMode, ParseRNNDirectionMode, dir_count_of.
  parser_cases (attr_rnn_mode attrs); cbn [bind]; try discriminate;
    (destruct (ParseRNNInputMode (attr_input_mode attrs));
     cbn [bind]; try discriminate);
    parser_cases (attr_direction attrs); cbn [bind]; try discriminate;
    intros H; inversion H; subst; cbn; split; eauto; congruence.
Qed.

(* ================================================================== *)
(** * More on the parameter-size calculator *)

(** X3.  For a recognized kind and [dir_count] 1 or 2, a size that fits an
    [int] is the gate multiplier times the direction count times the size of
    the plain unidirectional network of the same dimensions: LSTM costs four
    times, GRU three times plain relu/tanh, and a second direction doubles
    the buffer. *)
Theorem get_param_size_scales (k : algorithm) (g d i u l : Z) :
  Spec.gate_multiplier k = Some g ->
  d = 1 \/ d = 2 ->
  fits_int (Spec.param_size g d i u l) ->
  get_param_size k d i u l = g * d * get_param_size rnn_relu 1 i u l /\
  get_param_size rnn_tanh 1 i u l = get_param_size rnn_relu 1 i u l.
Proof.
  intros Hg Hd Hfit. split; [|reflexivity].
  pose proof (gate_multiplier_pos k g Hg) as Hgp.
  rewrite (get_param_size_wraps k g) by assumption.
  rewrite (get_param_size_wraps rnn_relu 1) by reflexivity.
  assert (E : Spec.param_size g d i u l = g * d * Spec.param_size 1 1 i u l)
    by (unfold Spec.param_size; ring).
  assert (Hfit1 : fits_int (Spec.param_size 1 1 i u l)).
  { rewrite E in Hfit. unfold fits_int, INT_MIN, INT_MAX, half in *. nia. }
  rewrite !to_int_fits by assumption. exact E.
Qed.

Lemma get_param_size_scales_witness :
  get_param_size rnn_lstm 2 6 10 3 = 4 * 2 * get_param_size rnn_relu 1 6 10 3.
Proof.
  refine (proj1 (get_param_size_scales rnn_lstm 4 2 6 10 3
                   eq_refl (or_intror eq_refl) _)).
  vm_compute. split; discriminate.
Defined.

(** X4.  On non-negative sizes every layer after the first adds the same
    amount, [g * dir_count * num_units * (2*num_units + 2)], whatever the
    input size, as long as the larger size stays within [int]. *)
Theorem get_param_size_layer_step (k : algorithm) (g d i u l : Z) :
  Spec.gate_multiplier k = Some g ->
  d = 1 \/ d = 2 -> 0 <= i -> 0 <= u -> 1 <= l ->
  Spec.param_size g d i u (l + 1) <= INT_MAX ->
  get_param_size k d i u (l + 1) =
  get_param_size k d i u l + g * d * u * (2 * u + 2).
Proof.
  intros Hg Hd Hi Hu Hl Hmax.
  pose proof (gate_multiplier_pos k g Hg) as Hgp.
  pose proof (param_size_mono g d i u l i u (l + 1)
                ltac:(lia) ltac:(lia) ltac:(lia) ltac:(lia) ltac:(lia)) as Hm.
  pose proof (param_size_nonneg g d i u l
                ltac:(lia) ltac:(lia) ltac:(lia) ltac:(lia) ltac:(lia)) as H0.
  rewrite !(get_param_size_wraps k g) by assumption.
  rewrite !to_int_fits
    by (unfold fits_int, INT_MIN, INT_MAX, half in *; lia).
  unfold Spec.param_size. ring.
Qed.

Lemma get_param_size_layer_step_witness :
  get_param_size rnn_gru 2 6 10 (2 + 1) =
  get_param_size rnn_gru 2 6 10 2 + 3 * 2 * 10 * (2 * 10 + 2).
Proof.
  refine (get_param_size_layer_step rnn_gru 3 2 6 10 2
            eq_refl (or_intror eq_refl) _ _ _ _); try lia.
  vm_compute. discriminate.
Defined.

(** X5.  The value -1 tells an unrecognized kind apart: with [dir_count] 1
    or 2, non-negative sizes, at least one layer and a size within [int],
    [get_param_size] returns -1 exactly for a kind that is none of the four
    recurrence kinds, and a non-negative size otherwise. *)
Theorem get_param_size_sentinel (k : algorithm) (d i u l : Z) :
  d = 1 \/ d = 2 -> 0 <= i -> 0 <= u -> 1 <= l ->
  (forall g, Spec.gate_multiplier k = Some g ->
             Spec.param_size g d i u l <= INT_MAX) ->
  (get_param_size k d i u l = -1 <-> k = algorithm_other) /\
  (k <> algorithm_other -> 0 <= get_param_size k d i u l).
Proof.
  intros Hd Hi Hu Hl Hmax.
  destruct (Spec.gate_multiplier k) as [g|] eqn:Hg.
  - pose proof (gate_multiplier_pos k g Hg) as Hgp.
    pose proof (param_size_nonneg g d i u l
                  ltac:(lia) ltac:(lia) ltac:(lia) ltac:(lia) ltac:(lia)) as H0.
    specialize (Hmax g eq_refl).
    rewrite (get_param_size_wraps k g) by assumption.
    rewrite to_int_fits
      by (unfold fits_int, INT_MIN, INT_MAX, half in *; lia).
    split; [split|]; intros; try lia.
    subst k. discriminate.
  - destruct k; try discriminate. split; [split|]; auto.
    intros H. contradiction.
Qed.

Lemma get_param_size_sentinel_witness :
  0 <= get_param_size rnn_lstm 1 3 4 2.
Proof.
  refine (proj2 (get_param_size_sentinel rnn_lstm 1 3 4 2
                   (or_introl eq_refl) _ _ _ _) _); try lia; try discriminate.
  intros g Hg. inversion Hg. vm_compute. discriminate.
Defined.

(** The result of [get_param_size] is an [int] value: narrowing it again
    changes nothing. *)
Lemma get_param_size_is_int (k : algorithm) (d i u l : Z) :
  to_int (get_param_size k d i u l) = get_param_size k d i u l.
Proof.
  apply to_int_fits. destruct k; try apply to_int_range.
  unfold fits_int, INT_MIN, INT_MAX, half. simpl. lia.
Qed.

(* ================================================================== *)
(** * The parameter-size kernel on one-element inputs *)

Lemma MkldnnRNNParamsSizeOp_one_element_eq
    (mt : MkldnnModelTypes) (nl nu isz : Int32Tensor) (vl vu vi : Z) :
  NumElements (i32_shape nl) = 1 -> i32_flat nl = [vl] ->
  NumElements (i32_shape nu) = 1 -> i32_flat nu = [vu] ->
  NumElements (i32_shape isz) = 1 -> i32_flat isz = [vi] ->
  MkldnnRNNParamsSizeOp_Compute mt nl nu isz =
  Ok ({| i32_shape := [1];
         i32_flat := [get_param_size (rnn_mode mt) (dir_count_of mt)
                                     vi vu vl] |},
      scalar_complaints nl nu isz).
Proof.
  intros Hnl Hfl Hnu Hfu Hni Hfi.
  unfold MkldnnRNNParamsSizeOp_Compute, scalar_int, scalar_complaints,
    log_unless, dir_count_of.
  rewrite Hnl, Hfl, Hnu, Hfu, Hni, Hfi. cbn [Z.eqb Pos.eqb bind].
  rewrite get_param_size_is_int.
  destruct (rnn_direction_mode mt);
    destruct (IsScalar (i32_shape nl)), (IsScalar (i32_shape nu)),
             (IsScalar (i32_shape isz)); reflexivity.
Qed.

(** X6.  Given three input tensors that each hold exactly one value, the
    parameter-size kernel returns a vector of length one, the shape its
    shape function declares, holding [get_param_size] of the three values
    (the narrowing to the [int32] output loses nothing) with the direction
    count of the model; the shapes of the inputs do not change the result,
    they only decide which of the three complaints are logged. *)
Theorem MkldnnRNNParamsSizeOp_one_element
    (mt : MkldnnModelTypes) (nl nu isz : Int32Tensor) (vl vu vi : Z) :
  NumElements (i32_shape nl) = 1 -> i32_flat nl = [vl] ->
  NumElements (i32_shape nu) = 1 -> i32_flat nu = [vu] ->
  NumElements (i32_shape isz) = 1 -> i32_flat isz = [vi] ->
  MkldnnRNNParamsSizeOp_Compute mt nl nu isz =
  Ok ({| i32_shape := [1];
         i32_flat := [get_param_size (rnn_mode mt) (dir_count_of mt)
                                     vi vu vl] |},
      scalar_complaints nl nu isz) /\
  MkldnnRNNParamsSize_ShapeFn = Ok (known_shape [1]).
Proof.
  intros Hnl Hfl Hnu Hfu Hni Hfi. split; [|reflexivity].
  now apply MkldnnRNNParamsSizeOp_one_element_eq.
Qed.

Lemma MkldnnRNNParamsSizeOp_one_element_witness :
  MkldnnRNNParamsSizeOp_Compute (model rnn_gru rnn_bidirectional)
    (scalar_i32 1) {| i32_shape := [1; 1]; i32_flat := [5] |} (scalar_i32 2)
  = Ok ({| i32_shape := [1]; i32_flat := [270] |},
        ["num_units is not a scalar"%string]).
Proof.
  exact (proj1 (MkldnnRNNParamsSizeOp_one_element
                  (model rnn_gru rnn_bidirectional)
                  (scalar_i32 1) {| i32_shape := [1; 1]; i32_flat := [5] |}
                  (scalar_i32 2) 1 5 2
                  eq_refl eq_refl eq_refl eq_refl eq_refl eq_refl)).
Defined.

(** X7.  End to end: a kernel constructed from registered attribute values
    and given three scalars logs nothing and returns, narrowed to [int],
    the size formula for the gate multiplier of the [rnn_mode] attribute and
    for two directions exactly when the [direction] attribute is
    "bidirectional". *)
Theorem params_size_from_attributes
    (attrs : RNNAttrs) (mt : MkldnnModelTypes) (vl vu vi : Z) :
  MkldnnRNNKernelCommon attrs = Ok mt ->
  exists g,
    Spec.gate_multiplier (rnn_mode mt) = Some g /\
    MkldnnRNNParamsSizeOp_Compute mt (scalar_i32 vl) (scalar_i32 vu)
                                  (scalar_i32 vi) =
    Ok ({| i32_shape := [1];
           i32_flat :=
             [to_int (Spec.param_size g
                        (if (attr_direction attrs =? "bidirectional")%string
                         then 2 else 1) vi vu vl)] |}, []).
Proof.
  intros Hk.
  destruct (MkldnnRNNKernelCommon_model attrs mt Hk) as [[g Hg] Hd].
  exists g. split; [assumption|].
  rewrite (MkldnnRNNParamsSizeOp_one_element_eq mt
             (scalar_i32 vl) (scalar_i32 vu) (scalar_i32 vi) vl vu vi
             eq_refl eq_refl eq_refl eq_refl eq_refl eq_refl).
  rewrite (get_param_size_wraps _ g) by assumption. rewrite Hd.
  reflexivity.
Qed.

Lemma params_size_from_attributes_witness :
  exists g,
    Spec.gate_multiplier rnn_lstm = Some g /\
    MkldnnRNNParamsSizeOp_Compute (model rnn_lstm rnn_unidirectional)
      (scalar_i32 2) (scalar_i32 4) (scalar_i32 3) =
    Ok ({| i32_shape := [1];
           i32_flat := [to_int (Spec.param_size g 1 3 4 2)] |}, []).
Proof.
  exact (params_size_from_attributes
           {| attr_rnn_mode := "lstm"; attr_input_mode := "auto_select";
              attr_direction := "unidirectional";
              attr_dropout := 0; attr_seed := 0; attr_seed2 := 0 |}
           (model rnn_lstm rnn_unidirectional) 2 4 3 eq_refl).
Defined.

(* ================================================================== *)
(** * The combined dropout seed *)

Lemma to_uint64_bits (z n : Z) :
  0 <= n -> Z.testbit (to_uint64 z) n = Z.testbit z n && (n <? 64).
Proof.
  intros Hn. unfold to_uint64. rewrite <- Z.land_ones by lia.
  rewrite Z.land_spec, Z.testbit_ones_nonneg by lia. reflexivity.
Qed.

(** Bit [n] of the combined seed: below 32 it is the bit of [seed2_]; from
    32 to 63 it is bit [n - 32] of [seed_] or-ed with bit [n] of the
    sign-extended [seed2_]. *)
Lemma seed_bits (s1 s2 n : Z) :
  0 <= n ->
  Z.testbit (seed s1 s2) n =
  ((32 <=? n) && (n <? 64) && Z.testbit s1 (n - 32))
  || (Z.testbit s2 n && (n <? 64)).
Proof.
  intros Hn. unfold seed.
  rewrite Z.lor_spec, !to_uint64_bits, Z.shiftl_spec by lia.
  destruct (Z.leb_spec 32 n) as [H32|H32].
  - rewrite to_uint64_bits by lia.
    destruct (Z.ltb_spec n 64) as [H64|H64].
    + destruct (Z.ltb_spec (n - 32) 64); [|lia].
      destruct (Z.testbit s1 (n - 32)), (Z.testbit s2 n); reflexivity.
    + destruct (Z.testbit s1 (n - 32)), (Z.testbit s2 n), (n - 32 <? 64);
        reflexivity.
  - rewrite (Z.testbit_neg_r _ (n - 32)) by lia. reflexivity.
Qed.

Lemma int_sign_bits (z n : Z) :
  fits_int z -> 31 <= n -> Z.testbit z n = (z <? 0).
Proof.
  unfold fits_int, INT_MIN, INT_MAX, half. intros Hz Hn.
  destruct (Z.ltb_spec z 0) as [Hneg|Hpos].
  - apply Z.bits_above_log2_neg; [assumption|].
    destruct (Z.eq_dec (Z.pred (- z)) 0) as [E|E].
    + rewrite E. simpl. lia.
    + apply Z.lt_le_trans with 31; [|assumption].
      apply Z.log2_lt_pow2; lia.
  - destruct (Z.eq_dec z 0) as [->|E]; [apply Z.testbit_0_l|].
    apply Z.bits_above_log2; [assumption|].
    apply Z.lt_le_trans with 31; [|assumption].
    apply Z.log2_lt_pow2; lia.
Qed.

(** X8.  With a non-negative [seed2_] the combined seed keeps both parts:
    its low 32 bits are [seed2_] and its high 32 bits are [seed_] (as a
    32-bit pattern), so both [int]s can be read back. *)
Theorem seed_keeps_both_parts (seed_ seed2_ : Z) :
  fits_int seed_ -> 0 <= seed2_ <= INT_MAX ->
  seed seed_ seed2_ = (seed_ mod 2 ^ 32) * 2 ^ 32 + seed2_ /\
  to_int (seed seed_ seed2_ / 2 ^ 32) = seed_ /\
  seed seed_ seed2_ mod 2 ^ 32 = seed2_.
Proof.
  intros H1 H2.
  assert (Hs2 : fits_int seed2_)
    by (unfold fits_int, INT_MIN, INT_MAX, half in *; lia).
  assert (Hhi : to_uint64 (Z.shiftl (to_uint64 seed_) 32) =
                (seed_ mod 2 ^ 32) * 2 ^ 32).
  { unfold to_uint64. rewrite Z.shiftl_mul_pow2 by lia.
    change (2 ^ 64) with (2 ^ 32 * 2 ^ 32).
    rewrite Z.mul_mod_distr_r by lia.
    rewrite Z.mod_mod_divide by (exists (2 ^ 32); reflexivity).
    reflexivity. }
  assert (Hlo : to_uint64 seed2_ = seed2_).
  { unfold to_uint64. apply Z.mod_small.
    unfold INT_MAX, half in H2. lia. }
  assert (Hland : Z.land ((seed_ mod 2 ^ 32) * 2 ^ 32) seed2_ = 0).
  { apply Z.bits_inj'. intros n Hn.
    rewrite Z.land_spec, Z.bits_0, <- Z.shiftl_mul_pow2 by lia.
    destruct (Z.lt_ge_cases n 32) as [Hlt|Hge].
    - now rewrite Z.shiftl_spec_low.
    - rewrite (int_sign_bits seed2_ n Hs2) by lia.
      destruct (Z.ltb_spec seed2_ 0); [lia|]. apply andb_false_r. }
  assert (E : seed seed_ seed2_ = (seed_ mod 2 ^ 32) * 2 ^ 32 + seed2_).
  { unfold seed. rewrite Hhi, Hlo, <- Z.add_lor_land, Hland. lia. }
  pose proof (Z.mod_pos_bound seed_ (2 ^ 32) ltac:(lia)) as Hb.
  assert (Hsmall : 0 <= seed2_ < 2 ^ 32)
    by (unfold INT_MAX, half in H2; lia).
  split; [exact E|]. rewrite E. split.
  - rewrite Z.div_add_l by lia. rewrite (Z.div_small seed2_) by lia.
    rewrite Z.add_0_r. rewrite <- (to_int_fits seed_ H1) at 2.
    apply to_int_congr. unfold eqm, modulus. apply Z.mod_mod. lia.
  - rewrite Z.add_comm, Z.mod_add by lia. apply Z.mod_small. lia.
Qed.

Lemma seed_keeps_both_parts_witness :
  to_int (seed (-7) 5 / 2 ^ 32) = -7 /\ seed (-7) 5 mod 2 ^ 32 = 5.
Proof.
  refine (proj2 (seed_keeps_both_parts (-7) 5 _ _)).
  - vm_compute. split; discriminate.
  - vm_compute. split; discriminate.
Defined.

(** X9.  With a negative [seed2_] the conversion to [uint64] extends its
    sign over the high half: the combined seed is [2^64 + seed2_] whatever
    [seed_] is, its high 32 bits are all ones, and [seed_] cannot be read
    back. *)
Theorem seed_negative_seed2_hides_seed (seed_ seed2_ : Z) :
  INT_MIN <= seed2_ < 0 ->
  seed seed_ seed2_ = 2 ^ 64 + seed2_ /\
  seed seed_ seed2_ / 2 ^ 32 = 2 ^ 32 - 1 /\
  forall other, seed other seed2_ = seed seed_ seed2_.
Proof.
  intros H2.
  assert (Hs2 : fits_int seed2_)
    by (unfold fits_int, INT_MIN, INT_MAX, half in *; lia).
  assert (E : forall s, seed s seed2_ = to_uint64 seed2_).
  { intros s. apply Z.bits_inj'. intros n Hn.
    rewrite seed_bits, to_uint64_bits by lia.
    destruct (Z.leb_spec 32 n) as [H32|H32]; [|reflexivity].
    rewrite (int_sign_bits seed2_ n Hs2) by lia.
    destruct (Z.ltb_spec seed2_ 0); [|lia].
    destruct (n <? 64); [|now rewrite !andb_false_r].
    cbn. apply orb_true_r. }
  assert (Eu : to_uint64 seed2_ = 2 ^ 64 + seed2_).
  { unfold to_uint64. symmetry.
    apply (Z.mod_unique seed2_ (2 ^ 64) (-1)); [left|];
      unfold INT_MIN, half in H2; lia. }
  split; [|split].
  - now rewrite E.
  - rewrite E, Eu. symmetry.
    apply (Z.div_unique (2 ^ 64 + seed2_) (2 ^ 32) (2 ^ 32 - 1)
                        (2 ^ 32 + seed2_)); [left|];
      unfold INT_MIN, half in H2; lia.
  - intros other. now rewrite !E.
Qed.

Lemma seed_negative_seed2_hides_seed_witness :
  seed 12345 (-1) = 2 ^ 64 + -1 /\ seed 12345 (-1) / 2 ^ 32 = 2 ^ 32 - 1.
Proof.
  destruct (seed_negative_seed2_hides_seed 12345 (-1)) as (H1 & H2 & _).
  - vm_compute. split; [discriminate|reflexivity].
  - split; assumption.
Defined.

(* ================================================================== *)
(** * More on the shape resolver *)

(** Three non-negative [int] sizes whose product is a valid element count
    make a valid shape. *)
Lemma AddDims_three (a b c : Z) :
  0 <= a <= INT_MAX -> 0 <= b <= INT_MAX -> 0 <= c <= INT_MAX ->
  a * b * c <= INT64_MAX ->
  AddDims 1 [a; b; c] = true.
Proof.
  unfold INT_MAX, half, INT64_MAX. intros Ha Hb Hc Habc.
  cbn [AddDims]. unfold INT64_MAX.
  rewrite Z.mul_1_l.
  repeat (apply andb_true_iff; split); try (apply Z.leb_le); try lia; try nia.
Qed.

(** X10.  The resolver returns on inputs laid out as the op documents
    them: [input] of shape [[seq_length, batch_size, input_size]] and
    [input_h] of shape [[dir_count*num_layers, batch_size, num_units]] with
    the same batch size, the sizes being non-negative, [seq_length],
    [batch_size], [input_size], [dir_count*num_layers] and
    [dir_count*num_units] within [int], the element counts of the
    hidden-state and output shapes within [int64], and, for a model with
    input-c, [input_c] shaped like [input_h].  It then derives exactly these
    sizes, the hidden-state shape is the shape of [input_h], and the output
    shape is [[seq_length, batch_size, dir_count*num_units]]. *)
Theorem ExtractForwardInput_accepts_documented
    (ctx : OpKernelContext) (mt : MkldnnModelTypes) (t n f L u : Z) :
  shape (input ctx) = [t; n; f] ->
  shape (input_h ctx) = [dir_count_of mt * L; n; u] ->
  (HasInputC mt = true -> shape (input_c ctx) = shape (input_h ctx)) ->
  0 <= t <= INT_MAX -> 0 <= n <= INT_MAX -> 0 <= f <= INT_MAX ->
  0 <= L -> 0 <= u ->
  dir_count_of mt * L <= INT_MAX -> dir_count_of mt * u <= INT_MAX ->
  dir_count_of mt * L * n * u <= INT64_MAX ->
  t * n * (dir_count_of mt * u) <= INT64_MAX ->
  exists fi,
    ExtractForwardInput ctx mt = Ok fi /\
    model_shapes fi =
      {| num_layers := L; input_size := f; num_units := u;
         seq_length := t; batch_size := n; dir_count := dir_count_of mt;
         input_shape := [t; n; f];
         output_shape := [t; n; dir_count_of mt * u];
         hidden_state_shape := [dir_count_of mt * L; n; u] |}.
Proof.
  intros Hi Hh Hc Ht Hn Hf HL Hu HdL Hdu Hhel Hoel.
  assert (Hd : dir_count_of mt = 1 \/ dir_count_of mt = 2)
    by (unfold dir_count_of; destruct (direction_eqb _ _); auto).
  unfold ExtractForwardInput. rewrite Hi, Hh. eval_reads.
  fold (dir_count_of mt).
  assert (Hq : Z.quot (dir_count_of mt * L) (dir_count_of mt) = L)
    by (rewrite Z.mul_comm; apply Z.quot_mul; lia).
  assert (Ft : fits_int t)
    by (unfold fits_int, INT_MIN, INT_MAX, half in *; lia).
  assert (Fn : fits_int n)
    by (unfold fits_int, INT_MIN, INT_MAX, half in *; lia).
  assert (Ff : fits_int f)
    by (unfold fits_int, INT_MIN, INT_MAX, half in *; lia).
  assert (FL : fits_int L)
    by (unfold fits_int, INT_MIN, INT_MAX, half in *; nia).
  assert (Fu : fits_int u)
    by (unfold fits_int, INT_MIN, INT_MAX, half in *; nia).
  assert (FdL : fits_int (dir_count_of mt * L))
    by (unfold fits_int, INT_MIN, INT_MAX, half in *; nia).
  assert (Fdu : fits_int (dir_count_of mt * u))
    by (unfold fits_int, INT_MIN, INT_MAX, half in *; nia).
  rewrite Hq. unfold int_mul.
  rewrite (to_int_fits t Ft), (to_int_fits n Fn), (to_int_fits f Ff),
    (to_int_fits L FL), (to_int_fits u Fu), (to_int_fits _ FdL).
  rewrite (MakeTensorShape_valid [dir_count_of mt * L; n; u])
    by (apply AddDims_three; try assumption; lia).
  cbn [bind]. rewrite (to_int_fits _ Fdu).
  rewrite (MakeTensorShape_valid [t; n; dir_count_of mt * u])
    by (apply AddDims_three; try assumption; lia).
  destruct (HasInputC mt).
  - rewrite (Hc eq_refl), Hh, shape_eqb_refl. cbn [negb bind].
    eexists. split; reflexivity.
  - cbn [bind]. eexists. split; reflexivity.
Qed.

Lemma ExtractForwardInput_accepts_documented_witness :
  exists fi,
    ExtractForwardInput (forward_context [3; 8; 6] [4; 8; 10] [4; 8; 10] [2400])
                        (model rnn_lstm rnn_bidirectional) = Ok fi /\
    hidden_state_shape (model_shapes fi) = [4; 8; 10] /\
    output_shape (model_shapes fi) = [3; 8; 20].
Proof.
  destruct (ExtractForwardInput_accepts_documented
              (forward_context [3; 8; 6] [4; 8; 10] [4; 8; 10] [2400])
              (model rnn_lstm rnn_bidirectional) 3 8 6 2 10)
    as (fi & Hres & Hms);
    try reflexivity; try (vm_compute; split; discriminate);
    try (vm_compute; discriminate).
  exists fi. split; [exact Hres|]. rewrite Hms. split; reflexivity.
Defined.

(** X11.  The ranks of the derived shapes follow the ranks of the inputs
    only through the test "rank is 2": the output shape has rank 2 for a
    rank-2 [input] and rank 3 for every other rank, the hidden-state shape
    has rank 2 for a rank-2 [input_h] and rank 3 for every other rank, and
    the input shape is three-dimensional for a rank-2 [input] and the shape
    of [input] itself otherwise. *)
Theorem derived_shape_ranks
    (ctx : OpKernelContext) (mt : MkldnnModelTypes) (fi : ForwardInput) :
  ExtractForwardInput ctx mt = Ok fi ->
  List.length (output_shape (model_shapes fi)) =
    (if dims (shape (input ctx)) =? 2 then 2%nat else 3%nat) /\
  List.length (hidden_state_shape (model_shapes fi)) =
    (if dims (shape (input_h ctx)) =? 2 then 2%nat else 3%nat) /\
  (if dims (shape (input ctx)) =? 2
   then List.length (input_shape (model_shapes fi)) = 3%nat
   else input_shape (model_shapes fi) = shape (input ctx)).
Proof.
  unfold ExtractForwardInput.
  resolver_cases; try discriminate; resolver_finish ctx mt;
    repeat split; reflexivity.
Qed.

Lemma derived_shape_ranks_witness :
  exists fi,
    ExtractForwardInput (forward_context [3; 8; 6; 2] [2; 8; 10; 7] [] [1200])
                        (model rnn_gru rnn_unidirectional) = Ok fi /\
    List.length (output_shape (model_shapes fi)) = 3%nat /\
    List.length (hidden_state_shape (model_shapes fi)) = 3%nat.
Proof.
  eexists. split; [reflexivity|].
  destruct (derived_shape_ranks
              (forward_context [3; 8; 6; 2] [2; 8; 10; 7] [] [1200])
              (model rnn_gru rnn_unidirectional) _ eq_refl) as (H1 & H2 & _).
  split; [exact H1 | exact H2].
Defined.

(** The fields derived from [input_h] depend on its shape and on the model
    only. *)
Lemma ExtractForwardInput_hidden_fields
    (ctx ctx' : OpKernelContext) (mt : MkldnnModelTypes)
    (fi fi' : ForwardInput) :
  shape (input_h ctx') = shape (input_h ctx) ->
  ExtractForwardInput ctx mt = Ok fi ->
  ExtractForwardInput ctx' mt = Ok fi' ->
  num_layers (model_shapes fi') = num_layers (model_shapes fi) /\
  num_units (model_shapes fi') = num_units (model_shapes fi) /\
  dir_count (model_shapes fi') = dir_count (model_shapes fi).
Proof.
  intros Hh. unfold ExtractForwardInput. rewrite Hh.
  resolver_cases; try discriminate;
    destruct (HasInputC mt); cbn [bind negb];
    try destruct (shape_eqb (shape (input_h ctx)) (shape (input_c ctx)));
    try destruct (shape_eqb (shape (input_h ctx)) (shape (input_c ctx')));
    cbn [bind negb]; try discriminate;
    intros H1 H2; inversion H1; inversion H2; cbn; auto.
Qed.

(** X12.  Two resolutions for the same model and the same [input_h] shape
    are compatible in the sense of [IsCompatibleWith] whenever the inputs
    have the same feature size, whatever their sequence lengths and batch
    sizes, and whether the second input is given with or without a sequence
    axis. *)
Theorem IsCompatibleWith_across_batches
    (ctx ctx' : OpKernelContext) (mt : MkldnnModelTypes)
    (fi fi' : ForwardInput) (t n f : Z) :
  ExtractForwardInput ctx mt = Ok fi ->
  ExtractForwardInput ctx' mt = Ok fi' ->
  shape (input_h ctx') = shape (input_h ctx) ->
  shape (input ctx) = [t; n; f] ->
  (exists t' n', shape (input ctx') = [t'; n'; f]) \/
  (exists n', shape (input ctx') = [n'; f]) ->
  IsCompatibleWith (model_shapes fi) (model_shapes fi') = true.
Proof.
  intros H H' Hh Hi Hi'.
  destruct (ExtractForwardInput_hidden_fields ctx ctx' mt fi fi' Hh H H')
    as (Hl & Hu & Hd).
  destruct (ExtractForwardInput_rank3_input ctx mt fi t n f Hi H)
    as (_ & _ & Hf & _).
  assert (Hf' : input_size (model_shapes fi') = to_int f).
  { destruct Hi' as [(t' & n' & E) | (n' & E)].
    - now destruct (ExtractForwardInput_rank3_input ctx' mt fi' _ _ _ E H')
        as (_ & _ & ? & _).
    - now destruct (ExtractForwardInput_rank2_input ctx' mt fi' _ _ E H')
        as (_ & _ & ? & _). }
  unfold IsCompatibleWith. rewrite Hl, Hu, Hd, Hf, Hf', !Z.eqb_refl.
  reflexivity.
Qed.

Lemma IsCompatibleWith_across_batches_witness :
  exists fi fi',
    ExtractForwardInput (forward_context [3; 8; 6] [2; 8; 10] [] [1200])
                        (model rnn_gru rnn_unidirectional) = Ok fi /\
    ExtractForwardInput (forward_context [50; 16; 6] [2; 8; 10] [] [1200])
                        (model rnn_gru rnn_unidirectional) = Ok fi' /\
    IsCompatibleWith (model_shapes fi) (model_shapes fi') = true.
Proof.
  do 2 eexists. split; [reflexivity|]. split; [reflexivity|].
  refine (IsCompatibleWith_across_batches
            (forward_context [3; 8; 6] [2; 8; 10] [] [1200])
            (forward_context [50; 16; 6] [2; 8; 10] [] [1200])
            (model rnn_gru rnn_unidirectional) _ _ 3 8 6
            eq_refl eq_refl eq_refl eq_refl _).
  left. exists 50, 16. reflexivity.
Defined.

(* ================================================================== *)
(** * More on the forward kernel *)




(** X14.  The memory descriptors laid over [input] and [output] describe
    exactly those tensors when the dimensions of [input] fit an [int]: for
    a rank-3 [input] the x descriptor has the dimensions of [input] and the
    y descriptor those of [output]; for a rank-2 [input] each has a leading
    dimension 1 before them.  The weights descriptor has the one dimension
    [get_param_size] of the derived sizes. *)
Theorem forward_descriptors_cover_tensors
    (get_size : workspace_get_size) (mt : MkldnnModelTypes)
    (is_training : bool) (ctx : OpKernelContext) (outs : ForwardOutputs) :
  MkldnnRNNForwardOp_Compute get_size mt is_training ctx = Ok outs ->
  let d := call_desc (forward_call outs) in
  (forall t n f,
     shape (input ctx) = [t; n; f] ->
     fits_int t -> fits_int n -> fits_int f ->
     md_dims (rd_x_desc d) = shape (input ctx) /\
     md_dims (rd_y_desc d) = shape (output outs)) /\
  (forall n f,
     shape (input ctx) = [n; f] -> fits_int n -> fits_int f ->
     md_dims (rd_x_desc d) = 1 :: shape (input ctx) /\
     md_dims (rd_y_desc d) = 1 :: shape (output outs)) /\
  (exists fi,
     ExtractForwardInput ctx mt = Ok fi /\
     md_dims (rd_weights_desc d) =
       [get_param_size (rnn_mode mt) (dir_count (model_shapes fi))
          (input_size (model_shapes fi)) (num_units (model_shapes fi))
          (num_layers (model_shapes fi))]).
Proof.
  intros Hf d.
  destruct (forward_ok_inv _ _ _ _ _ Hf) as (fi & E & Ho & _ & _ & Hd).
  subst d. rewrite Hd, Ho. unfold rnn_desc_of, make_rnn_desc. cbn.
  assert (Hcomm : int_mul (num_units (model_shapes fi))
                          (dir_count (model_shapes fi)) =
                  int_mul (dir_count (model_shapes fi))
                          (num_units (model_shapes fi)))
    by (unfold int_mul; now rewrite Z.mul_comm).
  split; [|split].
  - intros t n f Hs Ht Hn Hff.
    destruct (ExtractForwardInput_rank3_input ctx mt fi t n f Hs E)
      as (H1 & H2 & H3 & _ & H5).
    rewrite H5, Hcomm, H1, H2, H3, Hs, !to_int_fits by assumption.
    split; reflexivity.
  - intros n f Hs Hn Hff.
    destruct (ExtractForwardInput_rank2_input ctx mt fi n f Hs E)
      as (H1 & H2 & H3 & _ & H5).
    rewrite H5, Hcomm, H1, H2, H3, Hs, !to_int_fits by assumption.
    split; reflexivity.
  - exists fi. split; [assumption|]. now rewrite get_param_size_is_int.
Qed.

Lemma forward_descriptors_cover_tensors_witness :
  exists outs,
    MkldnnRNNForwardOp_Compute (fixed_workspace 4000)
      (model rnn_gru rnn_bidirectional) true
      (forward_context [3; 8; 6] [4; 8; 10] [] [2400]) = Ok outs /\
    md_dims (rd_x_desc (call_desc (forward_call outs))) = [3; 8; 6] /\
    md_dims (rd_y_desc (call_desc (forward_call outs))) =
      shape (output outs).
Proof.
  eexists. split; [reflexivity|].
  refine (proj1 (forward_descriptors_cover_tensors (fixed_workspace 4000)
            (model rnn_gru rnn_bidirectional) true
            (forward_context [3; 8; 6] [4; 8; 10] [] [2400]) _ eq_refl)
            3 8 6 eq_refl _ _ _); vm_compute; split; discriminate.
Defined.

(** X15.  The descriptor laid over [input_h] (and over [output_h] and the
    cell states) has the dimensions [num_layers, batch_size, num_units]:
    for an [input_h] of the documented shape
    [[dir_count*L, batch_size, num_units]] it describes
    [L * batch_size * num_units] elements, so the tensor holds [dir_count]
    times the elements the descriptor describes. *)
Theorem forward_hidden_descriptor
    (get_size : workspace_get_size) (mt : MkldnnModelTypes)
    (is_training : bool) (ctx : OpKernelContext) (outs : ForwardOutputs)
    (L b n : Z) :
  MkldnnRNNForwardOp_Compute get_size mt is_training ctx = Ok outs ->
  shape (input_h ctx) = [dir_count_of mt * L; b; n] ->
  shape (output_h outs) = shape (input_h ctx) ->
  0 <= L -> dir_count_of mt * L <= INT_MAX -> fits_int b -> fits_int n ->
  md_dims (rd_hx_desc (call_desc (forward_call outs))) = [L; b; n] /\
  NumElements (shape (input_h ctx)) =
  dir_count_of mt *
  NumElements (md_dims (rd_hx_desc (call_desc (forward_call outs)))).
Proof.
  intros Hf Hs Hsame HL HdL Hb Hn.
  destruct (forward_ok_inv _ _ _ _ _ Hf) as (fi & E & _ & Hh & _ & Hd).
  destruct (ExtractForwardInput_rank3_hidden ctx mt fi _ _ _ Hs E)
    as (Hl & Hu & Hhs).
  pose proof (ExtractForwardInput_dir_count ctx mt fi E) as Hdir.
  fold (dir_count_of mt) in Hdir.
  assert (Hd12 : dir_count_of mt = 1 \/ dir_count_of mt = 2)
    by (unfold dir_count_of; destruct (direction_eqb _ _); auto).
  assert (HLfit : fits_int L)
    by (unfold fits_int, INT_MIN, INT_MAX, half in *; lia).
  rewrite Hdir, Z.mul_comm, Z.quot_mul in Hl by lia.
  rewrite (to_int_fits L HLfit) in Hl.
  rewrite (to_int_fits n Hn) in Hu.
  assert (Hbs : batch_size (model_shapes fi) = b).
  { rewrite Hh, Hhs, Hs in Hsame. inversion Hsame. reflexivity. }
  assert (Edims : md_dims (rd_hx_desc (call_desc (forward_call outs))) =
                  [L; b; n]).
  { rewrite Hd. unfold rnn_desc_of, make_rnn_desc. cbn.
    now rewrite Hl, Hu, Hbs. }
  split; [exact Edims|]. rewrite Edims, Hs. cbn. ring.
Qed.

Lemma forward_hidden_descriptor_witness :
  exists outs,
    MkldnnRNNForwardOp_Compute (fixed_workspace 4000)
      (model rnn_gru rnn_bidirectional) true
      (forward_context [3; 8; 6] [4; 8; 10] [] [2400]) = Ok outs /\
    md_dims (rd_hx_desc (call_desc (forward_call outs))) = [2; 8; 10] /\
    NumElements [4; 8; 10] = 2 * NumElements [2; 8; 10].
Proof.
  eexists. split; [reflexivity|].
  split.
  - refine (proj1 (forward_hidden_descriptor (fixed_workspace 4000)
              (model rnn_gru rnn_bidirectional) true
              (forward_context [3; 8; 6] [4; 8; 10] [] [2400]) _ 2 8 10
              eq_refl eq_refl eq_refl _ _ _ _)); try lia;
      vm_compute; try discriminate; split; discriminate.
  - reflexivity.
Defined.

(* ================================================================== *)
(** * More on the backward kernel *)

(** What a returning backward call has checked. *)
Lemma backward_ok_checks
    (get_size : workspace_get_size) (mt : MkldnnModelTypes)
    (bctx : BackpropContext) (bouts : BackwardOutputs) :
  MkldnnRNNBackwardOp_Compute get_size mt bctx = Ok bouts ->
  exists fi,
    ExtractForwardInput (forward_inputs bctx) mt = Ok fi /\
    output_shape (model_shapes fi) = shape (output_backprop bctx) /\
    shape (output_h_backprop bctx) = hidden_state_shape (model_shapes fi) /\
    (HasInputC mt = true ->
     shape (output_c_backprop bctx) = hidden_state_shape (model_shapes fi)).
Proof.
  intros Hok.
  destruct (ExtractForwardInput (forward_inputs bctx) mt) as [fi|st|f] eqn:E.
  - exists fi. split; [reflexivity|].
    destruct (shape_eqb (output_shape (model_shapes fi))
                        (shape (output_backprop bctx))) eqn:Ey.
    2:{ apply shape_eqb_neq in Ey. destruct (HasInputC mt) eqn:Ec.
        - rewrite (backward_dy_mismatch_cell get_size mt bctx fi E Ec Ey) in Hok.
          discriminate.
        - rewrite (backward_dy_mismatch_no_cell get_size mt bctx fi E Ec Ey)
            in Hok.
          discriminate. }
    apply shape_eqb_eq in Ey.
    destruct (shape_eqb (shape (output_h_backprop bctx))
                        (hidden_state_shape (model_shapes fi))) eqn:Eh.
    2:{ apply shape_eqb_neq in Eh.
        rewrite (backward_dhy_mismatch get_size mt bctx fi E Ey Eh) in Hok.
        discriminate. }
    apply shape_eqb_eq in Eh.
    repeat split; try assumption.
    intros Ec.
    destruct (shape_eqb (shape (output_c_backprop bctx))
                        (hidden_state_shape (model_shapes fi))) eqn:Ecy.
    + now apply shape_eqb_eq.
    + apply shape_eqb_neq in Ecy.
      rewrite (backward_dcy_mismatch get_size mt bctx fi E Ec Ey Eh Ecy)
        in Hok.
      discriminate.
  - rewrite (backward_resolver_failed _ _ _ _ E) in Hok. discriminate.
  - rewrite (backward_resolver_aborted _ _ _ _ E) in Hok. discriminate.
Qed.



(** X17.  When the backward kernel returns, each gradient output has the
    shape of the forward input it belongs to: [input_backprop] of [input],
    [input_h_backprop] of [input_h], [params_backprop] of [params], and
    [input_c_backprop] of [input_c] for a model with input-c and the empty
    shape otherwise.  The registered shape function declares the shape of
    [input_c] for [input_c_backprop] in every case, so on a model without
    input-c the two agree only when [input_c] itself has the empty shape. *)
Theorem backward_outputs_mirror_inputs
    (get_size : workspace_get_size) (mt : MkldnnModelTypes)
    (bctx : BackpropContext) (bouts : BackwardOutputs) :
  MkldnnRNNBackwardOp_Compute get_size mt bctx = Ok bouts ->
  let ctx := forward_inputs bctx in
  shape (input_backprop bouts) = shape (input ctx) /\
  shape (input_h_backprop bouts) = shape (input_h ctx) /\
  shape (params_backprop bouts) = shape (params ctx) /\
  shape (input_c_backprop bouts) =
    (if HasInputC mt then shape (input_c ctx) else []) /\
  exists inf,
    MkldnnRNNBackprop_ShapeFn
      (known_shape (shape (input ctx))) (known_shape (shape (input_h ctx)))
      (known_shape (shape (input_c ctx))) (known_shape (shape (params ctx)))
    = Ok inf /\
    inferred_input_backprop inf = known_shape (shape (input_backprop bouts)) /\
    inferred_input_h_backprop inf =
      known_shape (shape (input_h_backprop bouts)) /\
    inferred_params_backprop inf =
      known_shape (shape (params_backprop bouts)) /\
    (inferred_input_c_backprop inf =
       known_shape (shape (input_c_backprop bouts)) <->
     HasInputC mt = true \/ shape (input_c ctx) = []).
Proof.
  intros Hb ctx.
  destruct (backward_ok_checks _ _ _ _ Hb) as (fi & E & Hy & Hh & Hc).
  rewrite (backward_after_checks get_size mt bctx fi E Hy Hh Hc) in Hb.
  inversion Hb; subst bouts; clear Hb. cbn. fold ctx.
  repeat split; try reflexivity.
  eexists. split; [reflexivity|]. cbn. repeat split.
  - destruct (HasInputC mt); [auto|].
    intros H. right. unfold known_shape in H.
    destruct (shape (input_c ctx)); [reflexivity|discriminate].
  - intros [H|H]; [now rewrite H|].
    rewrite H. now destruct (HasInputC mt).
Qed.

Lemma backward_outputs_mirror_inputs_witness :
  exists bouts,
    MkldnnRNNBackwardOp_Compute (fixed_workspace 4000)
      (model rnn_gru rnn_unidirectional)
      (backprop_context (forward_context [3; 8; 6] [1; 8; 10] [1; 8; 10] [540])
                        [3; 8; 10] [1; 8; 10] [] [1000]) = Ok bouts /\
    shape (input_backprop bouts) = [3; 8; 6] /\
    shape (input_c_backprop bouts) = [].
Proof.
  eexists. split; [reflexivity|].
  destruct (backward_outputs_mirror_inputs (fixed_workspace 4000)
              (model rnn_gru rnn_unidirectional)
              (backprop_context
                 (forward_context [3; 8; 6] [1; 8; 10] [1; 8; 10] [540])
                 [3; 8; 10] [1; 8; 10] [] [1000]) _ eq_refl)
    as (H1 & _ & _ & H4 & _).
  split; [exact H1 | exact H4].
Defined.

(** X18.  The backward kernel never looks at the [reserve_space] it is
    given: two calls that differ only in that tensor end the same way, so a
    reserve space of any shape, also one from another forward call, is
    passed on to the primitive.  On a model without input-c it does not
    look at [input_c] and [output_c_backprop] either. *)
Theorem backward_ignores_reserve_space
    (get_size : workspace_get_size) (mt : MkldnnModelTypes)
    (bctx bctx' : BackpropContext) :
  input (forward_inputs bctx') = input (forward_inputs bctx) ->
  input_h (forward_inputs bctx') = input_h (forward_inputs bctx) ->
  params (forward_inputs bctx') = params (forward_inputs bctx) ->
  output_backprop bctx' = output_backprop bctx ->
  output_h_backprop bctx' = output_h_backprop bctx ->
  (HasInputC mt = true ->
   input_c (forward_inputs bctx') = input_c (forward_inputs bctx) /\
   output_c_backprop bctx' = output_c_backprop bctx) ->
  MkldnnRNNBackwardOp_Compute get_size mt bctx' =
  MkldnnRNNBackwardOp_Compute get_size mt bctx.
Proof.
  intros Hi Hh Hp Hy Hhy Hc.
  unfold MkldnnRNNBackwardOp_Compute, ExtractForwardInput.
  rewrite Hi, Hh, Hp, Hy, Hhy.
  destruct (HasInputC mt); cbv beta iota zeta.
  - destruct (Hc eq_refl) as [-> ->]. reflexivity.
  - reflexivity.
Qed.

Lemma backward_ignores_reserve_space_witness :
  MkldnnRNNBackwardOp_Compute (fixed_workspace 4000)
    (model rnn_gru rnn_unidirectional)
    (backprop_context (forward_context [3; 8; 6] [1; 8; 10] [7] [540])
                      [3; 8; 10] [1; 8; 10] [9; 9] [1]) =
  MkldnnRNNBackwardOp_Compute (fixed_workspace 4000)
    (model rnn_gru rnn_unidirectional)
    (backprop_context (forward_context [3; 8; 6] [1; 8; 10] [] [540])
                      [3; 8; 10] [1; 8; 10] [] [1000]).
Proof.
  refine (backward_ignores_reserve_space (fixed_workspace 4000)
            (model rnn_gru rnn_unidirectional)
            (backprop_context (forward_context [3; 8; 6] [1; 8; 10] [] [540])
                              [3; 8; 10] [1; 8; 10] [] [1000])
            (backprop_context (forward_context [3; 8; 6] [1; 8; 10] [7] [540])
                              [3; 8; 10] [1; 8; 10] [9; 9] [1])
            eq_refl eq_refl eq_refl eq_refl eq_refl _).
  discriminate.
Defined.

(* ================================================================== *)
(** * The shape function against the forward kernel *)








(* ================================================================== *)
(** * The size query against the forward kernel *)

(** X21.  The two kernels size the parameter buffer alike: whenever the
    forward kernel returns, the one dimension of the weights descriptor it
    built is the value the parameter-size kernel of the same model returns
    for the derived [num_layers], [num_units] and [input_size] given as
    scalars (both count two directions for a bidirectional model and one
    otherwise). *)
Theorem params_size_matches_forward_descriptor
    (get_size : workspace_get_size) (mt : MkldnnModelTypes)
    (is_training : bool) (ctx : OpKernelContext) (outs : ForwardOutputs) :
  MkldnnRNNForwardOp_Compute get_size mt is_training ctx = Ok outs ->
  exists fi,
    ExtractForwardInput ctx mt = Ok fi /\
    MkldnnRNNParamsSizeOp_Compute mt
      (scalar_i32 (num_layers (model_shapes fi)))
      (scalar_i32 (num_units (model_shapes fi)))
      (scalar_i32 (input_size (model_shapes fi))) =
    Ok ({| i32_shape := [1];
           i32_flat :=
             md_dims (rd_weights_desc (call_desc (forward_call outs))) |},
        []).
Proof.
  intros Hf.
  destruct (forward_ok_inv _ _ _ _ _ Hf) as (fi & E & _ & _ & _ & Hd).
  exists fi. split; [assumption|].
  rewrite (MkldnnRNNParamsSizeOp_one_element_eq mt
             (scalar_i32 (num_layers (model_shapes fi)))
             (scalar_i32 (num_units (model_shapes fi)))
             (scalar_i32 (input_size (model_shapes fi)))
             (num_layers (model_shapes fi)) (num_units (model_shapes fi))
             (input_size (model_shapes fi))
             eq_refl eq_refl eq_refl eq_refl eq_refl eq_refl).
  rewrite Hd. unfold rnn_desc_of, make_rnn_desc. cbn.
  rewrite get_param_size_is_int.
  rewrite (ExtractForwardInput_dir_count ctx mt fi E).
  reflexivity.
Qed.

Lemma params_size_matches_forward_descriptor_witness :
  exists outs,
    MkldnnRNNForwardOp_Compute (fixed_workspace 4000)
      (model rnn_lstm rnn_bidirectional) true
      (forward_context [3; 8; 6] [6; 8; 10] [6; 8; 10] [4960]) = Ok outs /\
    MkldnnRNNParamsSizeOp_Compute (model rnn_lstm rnn_bidirectional)
      (scalar_i32 3) (scalar_i32 10) (scalar_i32 6) =
    Ok ({| i32_shape := [1];
           i32_flat :=
             md_dims (rd_weights_desc (call_desc (forward_call outs))) |},
        []).
Proof.
  eexists. split; [reflexivity|].
  destruct (params_size_matches_forward_descriptor (fixed_workspace 4000)
              (model rnn_lstm rnn_bidirectional) true
              (forward_context [3; 8; 6] [6; 8; 10] [6; 8; 10] [4960])
              _ eq_refl) as (fi & E & H).
  cbv in E. injection E as E. subst fi. exact H.
Defined.
